(** * Pebble watchface (src/c/main.c): time, date, weather, battery, bluetooth

    A shallow embedding of the event handlers of [main.c].  The handlers run
    on the host's event loop, one at a time; each is modelled as a
    computation over the program's static storage that also records the SDK
    calls it makes. *)

From Stdlib Require Import ZArith List Bool Lia String Ascii.
From Stdlib Require Import Numbers.DecimalString Numbers.DecimalPos.
From Stdlib Require Import Floats.SpecFloat.
Import ListNotations.

Local Open Scope string_scope.
Local Open Scope Z_scope.

(** ** The C library as the program uses it *)

Module CLib.

(** *** Strings held in fixed buffers *)

(** The first [n] characters of [s]. *)
Fixpoint take (n : nat) (s : string) : string :=
  match n, s with
  | O, _ => ""
  | S _, "" => ""
  | S n', String c s' => String c (take n' s')
  end.

(** A C string ends at its first NUL byte. *)
Fixpoint cstr (s : string) : string :=
  match s with
  | "" => ""
  | String c s' => if Ascii.eqb c Ascii.zero then "" else String c (cstr s')
  end.

(** ["%d"]: the decimal digits of an [int], with a minus sign when negative. *)
Definition dec (n : Z) : string := NilEmpty.string_of_int (Z.to_int n).

(** ["%02d"] and ["%2d"] for the two-column fields of [strftime]. *)
Definition pad2 (fill : ascii) (n : Z) : string :=
  if (0 <=? n) && (n <? 10) then String fill (dec n) else dec n.

(** Arguments of a [printf]-style call. *)
Inductive Arg : Type :=
| ArgInt (n : Z)
| ArgStr (s : string).

(** The output of a format: ["%d"] and ["%s"] consume an argument, every
    other character is copied. *)
Fixpoint format (fmt : string) (args : list Arg) : string :=
  match fmt with
  | "" => ""
  | String c rest =>
      if Ascii.eqb c "%" then
        match rest with
        | "" => ""
        | String d rest' =>
            if Ascii.eqb d "d" then
              match args with
              | ArgInt n :: args' => dec n ++ format rest' args'
              | _ => format rest' (tl args)
              end
            else if Ascii.eqb d "s" then
              match args with
              | ArgStr s :: args' => cstr s ++ format rest' args'
              | _ => format rest' (tl args)
              end
            else String d (format rest' args)
        end
      else String c (format rest args)
  end.

(** [snprintf(buf, size, fmt, ...)]: at most [size - 1] characters of the
    output are stored, followed by the terminating NUL. *)
Definition snprintf (size : nat) (fmt : string) (args : list Arg) : string :=
  take (size - 1) (format fmt args).

(** *** Broken-down time *)

Record tm : Type := mk_tm {
  tm_sec : Z;
  tm_min : Z;
  tm_hour : Z;
  tm_mday : Z;
  tm_mon : Z;
  tm_year : Z;
  tm_wday : Z
}.

Definition wday_abbrev : list string :=
  ["Sun"; "Mon"; "Tue"; "Wed"; "Thu"; "Fri"; "Sat"].

Definition mon_abbrev : list string :=
  ["Jan"; "Feb"; "Mar"; "Apr"; "May"; "Jun";
   "Jul"; "Aug"; "Sep"; "Oct"; "Nov"; "Dec"].

Definition in_range (lo hi n : Z) : bool := (lo <=? n) && (n <=? hi).

(** One conversion of [strftime], in the C locale.  A field outside its
    range, or a conversion the program never uses, has no defined output. *)
Definition conversion (d : ascii) (t : tm) : option string :=
  if Ascii.eqb d "H" then
    if in_range 0 23 (tm_hour t) then Some (pad2 "0" (tm_hour t)) else None
  else if Ascii.eqb d "I" then
    if in_range 0 23 (tm_hour t) then
      let h := tm_hour t mod 12 in
      Some (pad2 "0" (if h =? 0 then 12 else h))
    else None
  else if Ascii.eqb d "M" then
    if in_range 0 59 (tm_min t) then Some (pad2 "0" (tm_min t)) else None
  else if Ascii.eqb d "a" then
    if in_range 0 6 (tm_wday t)
    then nth_error wday_abbrev (Z.to_nat (tm_wday t)) else None
  else if Ascii.eqb d "b" then
    if in_range 0 11 (tm_mon t)
    then nth_error mon_abbrev (Z.to_nat (tm_mon t)) else None
  else if Ascii.eqb d "e" then
    if in_range 1 31 (tm_mday t) then Some (pad2 " " (tm_mday t)) else None
  else None.

Fixpoint expand (fmt : string) (t : tm) : option string :=
  match fmt with
  | "" => Some ""
  | String c rest =>
      if Ascii.eqb c "%" then
        match rest with
        | "" => None
        | String d rest' =>
            match conversion d t, expand rest' t with
            | Some a, Some b => Some (a ++ b)
            | _, _ => None
            end
        end
      else option_map (String c) (expand rest t)
  end.

(** [strftime(buf, max, fmt, tm)]: the expansion is stored when it fits
    together with its NUL; otherwise the buffer's contents are unspecified
    ([None]). *)
Definition strftime (max : nat) (fmt : string) (t : tm) : option string :=
  match expand fmt t with
  | Some s => if (String.length s <? max)%nat then Some s else None
  | None => None
  end.

(** *** Single-precision arithmetic *)

(** [float] is IEEE 754 binary32: 24 bits of precision, round to nearest,
    ties to even. *)
Definition float : Type := spec_float.
Definition prec : Z := 24.
Definition emax : Z := 128.

(** [(float)n] for an integer [n], and the literals [100.0F], [114.0F]. *)
Definition float_of_int (n : Z) : float := binary_normalize prec emax n 0 false.
Definition fdiv (x y : float) : float := SFdiv prec emax x y.
Definition fmul (x y : float) : float := SFmul prec emax x y.

(** [(int)x]: the fractional part is discarded (truncation toward zero). *)
Definition int_of_float (x : float) : Z :=
  match x with
  | S754_finite s m e =>
      let a := match e with
               | Zneg p => Z.pos m / 2 ^ Z.pos p
               | _ => Z.pos m * 2 ^ e
               end in
      if s then - a else a
  | _ => 0
  end.

End CLib.

(** ** The SDK surface the handlers touch *)

Module Sdk.

Inductive GColor : Type := GColorBlack | GColorWhite | GColorClear.

Record GRect : Type := mk_GRect {
  origin_x : Z;
  origin_y : Z;
  size_w : Z;
  size_h : Z
}.

(** A layer has a frame in its parent and bounds in its own coordinates;
    [layer_create] puts the bounds at the origin with the frame's size. *)
Record Layer : Type := mk_Layer {
  frame : GRect;
  bounds : GRect
}.

Definition layer_create (f : GRect) : Layer :=
  mk_Layer f (mk_GRect 0 0 (size_w f) (size_h f)).

Definition layer_get_bounds (l : Layer) : GRect := bounds l.

Inductive TextLayer : Type := s_time_layer | s_date_layer | s_weather_layer.

(** The static character arrays of [main.c]; a text layer keeps a pointer to
    one of them, not a copy of its contents. *)
Inductive Buffer : Type :=
| buf_s_buffer
| buf_date_buffer
| buf_temperature_buffer
| buf_conditions_buffer
| buf_weather_layer_buffer.

Inductive AppLogLevel : Type := APP_LOG_LEVEL_ERROR | APP_LOG_LEVEL_INFO.

(** Dictionary tuples of the messaging channel. *)
Inductive TupleValue : Type :=
| TupleUInt8 (n : Z)
| TupleInt32 (n : Z)
| TupleCString (s : string).

Record Tuple : Type := mk_Tuple {
  key : Z;
  value : TupleValue
}.

Definition DictionaryIterator : Type := list Tuple.

Fixpoint dict_find (iter : DictionaryIterator) (k : Z) : option Tuple :=
  match iter with
  | [] => None
  | t :: rest => if key t =? k then Some t else dict_find rest k
  end.

(** [t->value->int32] and [t->value->cstring]: reading the union at a type
    other than the stored one is not defined. *)
Definition value_int32 (t : Tuple) : option Z :=
  match value t with TupleInt32 n => Some n | _ => None end.

Definition value_cstring (t : Tuple) : option string :=
  match value t with TupleCString s => Some s | _ => None end.

Record BatteryChargeState : Type := mk_BatteryChargeState {
  charge_percent : Z;
  is_charging : bool;
  is_plugged : bool
}.

(** The calls a handler makes into the SDK, in program order.  The corner
    arguments of [graphics_fill_rect] are constant (no rounding) and left
    out. *)
Inductive Call : Type :=
| text_layer_set_text (l : TextLayer) (b : Buffer)
| app_message_outbox_begin
| dict_write_uint8 (k v : Z)
| app_message_outbox_send
| layer_mark_dirty (l : Layer)
| graphics_context_set_fill_color (c : GColor)
| graphics_fill_rect (r : GRect)
| layer_set_hidden (l : Layer) (h : bool)
| vibes_double_pulse
| APP_LOG (level : AppLogLevel) (msg : string).

Definition is_outbox_send (c : Call) : bool :=
  match c with app_message_outbox_send => true | _ => false end.

Definition is_double_pulse (c : Call) : bool :=
  match c with vibes_double_pulse => true | _ => false end.

Definition is_log (c : Call) : bool :=
  match c with APP_LOG _ _ => true | _ => false end.

Definition count (p : Call -> bool) (cs : list Call) : nat :=
  List.length (filter p cs).

(** The messages handed to the outbox: a message is opened by
    [app_message_outbox_begin], collects the tuples written to it and leaves
    with [app_message_outbox_send]. *)
Fixpoint sent_from (open : option DictionaryIterator) (cs : list Call)
  : list DictionaryIterator :=
  match cs with
  | [] => []
  | app_message_outbox_begin :: rest => sent_from (Some []) rest
  | dict_write_uint8 k v :: rest =>
      sent_from (option_map (fun d => (d ++ [mk_Tuple k (TupleUInt8 v)])%list) open) rest
  | app_message_outbox_send :: rest =>
      match open with
      | Some d => d :: sent_from None rest
      | None => sent_from None rest
      end
  | _ :: rest => sent_from open rest
  end.

Definition sent_messages (cs : list Call) : list DictionaryIterator :=
  sent_from None cs.

(** The rectangles filled on the graphics context, each with the fill colour
    current at the time; [c0] is the colour the context starts with. *)
Fixpoint painted (c0 : GColor) (cs : list Call) : list (GColor * GRect) :=
  match cs with
  | [] => []
  | graphics_context_set_fill_color c :: rest => painted c rest
  | graphics_fill_rect r :: rest => (c0, r) :: painted c0 rest
  | _ :: rest => painted c0 rest
  end.

End Sdk.

(** ** The program *)

Module Watchface.
Import CLib Sdk.

(** What the host supplies when asked: [localtime(time(NULL))] and
    [clock_is_24h_style()]. *)
Record Env : Type := mk_Env {
  localtime : tm;
  clock_is_24h_style : bool
}.

(** Static storage of [main.c] together with the layer properties the
    handlers set.  A [strftime] buffer is [None] while its contents are
    unspecified. *)
Record State : Type := mk_State {
  s_battery_level : Z;
  s_buffer : option string;
  date_buffer : option string;
  temperature_buffer : string;
  conditions_buffer : string;
  weather_layer_buffer : string;
  text : TextLayer -> option Buffer;
  bt_icon_hidden : bool
}.

(** Zero-initialised statics, no text set, every layer visible. *)
Definition initial : State :=
  mk_State 0 (Some "") (Some "") "" "" "" (fun _ => None) false.

Definition read (b : Buffer) (st : State) : option string :=
  match b with
  | buf_s_buffer => s_buffer st
  | buf_date_buffer => date_buffer st
  | buf_temperature_buffer => Some (temperature_buffer st)
  | buf_conditions_buffer => Some (conditions_buffer st)
  | buf_weather_layer_buffer => Some (weather_layer_buffer st)
  end.

(** The string a text layer shows: the contents of the buffer it points to. *)
Definition shown (l : TextLayer) (st : State) : option string :=
  match text st l with
  | Some b => read b st
  | None => None
  end.

Definition current_time : State -> option string := shown s_time_layer.
Definition current_date : State -> option string := shown s_date_layer.
Definition weather_text : State -> option string := shown s_weather_layer.

Definition TextLayer_eqb (a b : TextLayer) : bool :=
  match a, b with
  | s_time_layer, s_time_layer
  | s_date_layer, s_date_layer
  | s_weather_layer, s_weather_layer => true
  | _, _ => false
  end.

(** *** Handlers as computations

    A handler maps the state to a result, a new state and the SDK calls it
    made; [None] stands for behaviour the C standard leaves undefined. *)
Definition M (A : Type) : Type := State -> option (A * State * list Call).

Definition ret {A} (a : A) : M A := fun st => Some (a, st, []).

Definition bind {A B} (m : M A) (k : A -> M B) : M B :=
  fun st =>
    match m st with
    | Some (a, st1, cs1) =>
        match k a st1 with
        | Some (b, st2, cs2) => Some (b, st2, (cs1 ++ cs2)%list)
        | None => None
        end
    | None => None
    end.

Notation "x <- m ;; k" := (bind m (fun x => k))
  (at level 61, m at next level, right associativity).
Notation "m ;; k" := (bind m (fun _ => k))
  (at level 61, right associativity).

Definition get : M State := fun st => Some (st, st, []).
Definition modify (f : State -> State) : M unit := fun st => Some (tt, f st, []).
Definition call (c : Call) : M unit := fun st => Some (tt, st, [c]).
Definition defined {A} (o : option A) : M A :=
  fun st => match o with Some a => Some (a, st, []) | None => None end.

Definition store_battery_level (v : Z) (st : State) : State :=
  mk_State v (s_buffer st) (date_buffer st) (temperature_buffer st)
    (conditions_buffer st) (weather_layer_buffer st) (text st) (bt_icon_hidden st).

Definition store_s_buffer (v : option string) (st : State) : State :=
  mk_State (s_battery_level st) v (date_buffer st) (temperature_buffer st)
    (conditions_buffer st) (weather_layer_buffer st) (text st) (bt_icon_hidden st).

Definition store_date_buffer (v : option string) (st : State) : State :=
  mk_State (s_battery_level st) (s_buffer st) v (temperature_buffer st)
    (conditions_buffer st) (weather_layer_buffer st) (text st) (bt_icon_hidden st).

Definition store_temperature_buffer (v : string) (st : State) : State :=
  mk_State (s_battery_level st) (s_buffer st) (date_buffer st) v
    (conditions_buffer st) (weather_layer_buffer st) (text st) (bt_icon_hidden st).

Definition store_conditions_buffer (v : string) (st : State) : State :=
  mk_State (s_battery_level st) (s_buffer st) (date_buffer st)
    (temperature_buffer st) v (weather_layer_buffer st) (text st) (bt_icon_hidden st).

Definition store_weather_layer_buffer (v : string) (st : State) : State :=
  mk_State (s_battery_level st) (s_buffer st) (date_buffer st)
    (temperature_buffer st) (conditions_buffer st) v (text st) (bt_icon_hidden st).

Definition store_text (l : TextLayer) (b : Buffer) (st : State) : State :=
  mk_State (s_battery_level st) (s_buffer st) (date_buffer st)
    (temperature_buffer st) (conditions_buffer st) (weather_layer_buffer st)
    (fun l' => if TextLayer_eqb l' l then Some b else text st l')
    (bt_icon_hidden st).

Definition store_hidden (h : bool) (st : State) : State :=
  mk_State (s_battery_level st) (s_buffer st) (date_buffer st)
    (temperature_buffer st) (conditions_buffer st) (weather_layer_buffer st)
    (text st) h.

(** [text_layer_set_text(layer, buffer)]: the layer now points at [buffer]. *)
Definition set_text (l : TextLayer) (b : Buffer) : M unit :=
  modify (store_text l b) ;; call (text_layer_set_text l b).

(** [layer_set_hidden] on the bluetooth icon's layer. *)
Definition set_hidden (l : Layer) (h : bool) : M unit :=
  modify (store_hidden h) ;; call (layer_set_hidden l h).

(** Layers made in [main_window_load]. *)
Definition s_battery_layer : Layer := layer_create (mk_GRect 14 54 115 2).
Definition s_bt_icon_layer : Layer := layer_create (mk_GRect 59 12 30 30).

(** *** [update_time] *)
Definition update_time (env : Env) : M unit :=
  let tick_time := localtime env in
  modify (store_s_buffer
            (strftime 8 (if clock_is_24h_style env then "%H:%M" else "%I:%M")
               tick_time)) ;;
  set_text s_time_layer buf_s_buffer ;;
  modify (store_date_buffer (strftime 16 "%a %b %e" tick_time)) ;;
  set_text s_date_layer buf_date_buffer.

(** *** [tick_handler]; C's [%] is [Z.rem] *)
Definition tick_handler (env : Env) (tick_time : tm) (units_changed : Z) : M unit :=
  update_time env ;;
  if Z.rem (tm_min tick_time) 30 =? 0 then
    call app_message_outbox_begin ;;
    call (dict_write_uint8 0 0) ;;
    call app_message_outbox_send
  else ret tt.

(** *** [battery_callback] *)
Definition battery_callback (state : BatteryChargeState) : M unit :=
  modify (store_battery_level (charge_percent state)) ;;
  call (layer_mark_dirty s_battery_layer).

(** The width computed in [battery_update_proc]:
    [(int)(float)(((float)s_battery_level / 100.0F) * 114.0F)]. *)
Definition bar_width (level : Z) : Z :=
  int_of_float
    (fmul (fdiv (float_of_int level) (float_of_int 100)) (float_of_int 114)).

(** *** [battery_update_proc] *)
Definition battery_update_proc (layer : Layer) : M unit :=
  let bounds := layer_get_bounds layer in
  st <- get ;;
  let width := bar_width (s_battery_level st) in
  call (graphics_context_set_fill_color GColorBlack) ;;
  call (graphics_fill_rect bounds) ;;
  call (graphics_context_set_fill_color GColorWhite) ;;
  call (graphics_fill_rect (mk_GRect 0 0 width (size_h bounds))).

(** *** [bluetooth_callback] *)
Definition bluetooth_callback (connected : bool) : M unit :=
  set_hidden s_bt_icon_layer connected ;;
  if negb connected then call vibes_double_pulse else ret tt.

(** *** [inbox_received_callback]

    The message keys are generated at build time; the handler is defined for
    any pair of keys. *)
Section MessageKeys.

Variables MESSAGE_KEY_TEMPERATURE MESSAGE_KEY_CONDITIONS : Z.

Definition inbox_received_callback (iterator : DictionaryIterator) : M unit :=
  let temp_tuple := dict_find iterator MESSAGE_KEY_TEMPERATURE in
  let conditions_tuple := dict_find iterator MESSAGE_KEY_CONDITIONS in
  match temp_tuple, conditions_tuple with
  | Some temp, Some conditions =>
      n <- defined (value_int32 temp) ;;
      modify (store_temperature_buffer (snprintf 8 "%dF" [ArgInt n])) ;;
      s <- defined (value_cstring conditions) ;;
      modify (store_conditions_buffer (snprintf 32 "%s" [ArgStr s])) ;;
      st <- get ;;
      modify (store_weather_layer_buffer
                (snprintf 32 "%s, %s"
                   [ArgStr (temperature_buffer st);
                    ArgStr (conditions_buffer st)])) ;;
      set_text s_weather_layer buf_weather_layer_buffer
  | _, _ => ret tt
  end.

End MessageKeys.

(** *** Logging callbacks *)
Definition inbox_dropped_callback (reason : Z) : M unit :=
  call (APP_LOG APP_LOG_LEVEL_ERROR "Message dropped!").

Definition outbox_failed_callback (iterator : DictionaryIterator) (reason : Z)
  : M unit :=
  call (APP_LOG APP_LOG_LEVEL_ERROR "Outbox send failed!").

Definition outbox_sent_callback (iterator : DictionaryIterator) : M unit :=
  call (APP_LOG APP_LOG_LEVEL_INFO "Outbox send success!").

(** A run of bluetooth events, each handled to completion in turn; the
    result is the final state and the calls made, in order. *)
Fixpoint bluetooth_events (events : list bool) : M unit :=
  match events with
  | [] => ret tt
  | connected :: rest => bluetooth_callback connected ;; bluetooth_events rest
  end.

(** Rounding to the nearest integer, as the specification words the bar
    width: [w] is a nearest integer to [num / den] when it lies within one
    half of it. *)
Definition nearest_integer (num den w : Z) : Prop :=
  2 * Z.abs (den * w - num) <= den.

End Watchface.

(** ** Sample inputs *)

Module Samples.
Import CLib Sdk Watchface.

(** Wednesday, 5 March 2025, 13:05:00. *)
Definition march_5 : tm := mk_tm 0 5 13 5 2 125 3.

(** A tick at minute 30 and one at minute 0 of the same hour. *)
Definition half_past : tm := mk_tm 0 30 13 5 2 125 3.
Definition on_the_hour : tm := mk_tm 0 0 13 5 2 125 3.

(** Message keys as a build could assign them. *)
Definition KEY_TEMPERATURE : Z := 10000.
Definition KEY_CONDITIONS : Z := 10001.

Definition cloudy : DictionaryIterator :=
  [mk_Tuple KEY_TEMPERATURE (TupleInt32 72);
   mk_Tuple KEY_CONDITIONS (TupleCString "Cloudy")].

Definition stormy : DictionaryIterator :=
  [mk_Tuple KEY_TEMPERATURE (TupleInt32 72);
   mk_Tuple KEY_CONDITIONS
     (TupleCString "Thunderstorms with heavy rain and hail")].

Definition temperature_only : DictionaryIterator :=
  [mk_Tuple KEY_TEMPERATURE (TupleInt32 72)].

(** The state once [cloudy] has been received. *)
Definition showing_cloudy : State :=
  store_text s_weather_layer buf_weather_layer_buffer
    (store_weather_layer_buffer "72F, Cloudy"
       (store_conditions_buffer "Cloudy"
          (store_temperature_buffer "72F" initial))).

End Samples.

(** ** Start-up, the event loop and shutdown *)

Module Lifecycle.
Import CLib Sdk Watchface.

Inductive ResourceId : Type :=
| RESOURCE_ID_FONT_PERFECT_DOS_18
| RESOURCE_ID_FONT_PERFECT_DOS_48
| RESOURCE_ID_BACKGROUND
| RESOURCE_ID_IMAGE_BT_ICON.

(** The static handles of [main.c] besides the text layers. *)
Inductive GFont : Type := s_time_font | s_date_font | s_weather_font.
Inductive GBitmap : Type := s_background_bitmap | s_bt_icon_bitmap.
Inductive BitmapLayer : Type := s_background_layer | s_bt_icon_layer.

Inductive GTextAlignment : Type :=
| GTextAlignmentLeft
| GTextAlignmentCenter
| GTextAlignmentRight.

Inductive TimeUnits : Type :=
| SECOND_UNIT | MINUTE_UNIT | HOUR_UNIT | DAY_UNIT | MONTH_UNIT | YEAR_UNIT.

(** Everything the program allocates through the SDK. *)
Inductive Object : Type :=
| window
| text_layer (l : TextLayer)
| font (f : GFont)
| bitmap (b : GBitmap)
| bitmap_layer (l : BitmapLayer)
| plain_layer (l : Layer).

(** SDK calls made while the watchface is built and torn down.  A call that
    assigns its result to a static handle names the handle; the handler a
    subscription registers is fixed by the source and left out. *)
Inductive SetupCall : Type :=
| window_create
| window_set_window_handlers
| window_stack_push (animated : bool)
| window_set_background_color (c : GColor)
| window_destroy
| tick_timer_service_subscribe (units : TimeUnits)
| app_message_register_inbox_received
| app_message_register_inbox_dropped
| app_message_register_outbox_failed
| app_message_register_outbox_sent
| app_message_open (inbox_size outbox_size : Z)
| battery_state_service_subscribe
| connection_service_subscribe
| text_layer_create (l : TextLayer) (f : GRect)
| text_layer_destroy (l : TextLayer)
| text_layer_set_background_color (l : TextLayer) (c : GColor)
| text_layer_set_text_color (l : TextLayer) (c : GColor)
| text_layer_set_text_alignment (l : TextLayer) (a : GTextAlignment)
| text_layer_set_font (l : TextLayer) (f : GFont)
| fonts_load_custom_font (f : GFont) (r : ResourceId)
| fonts_unload_custom_font (f : GFont)
| gbitmap_create_with_resource (b : GBitmap) (r : ResourceId)
| gbitmap_destroy (b : GBitmap)
| bitmap_layer_create (l : BitmapLayer) (f : GRect)
| bitmap_layer_destroy (l : BitmapLayer)
| bitmap_layer_set_bitmap (l : BitmapLayer) (b : GBitmap)
| layer_created (l : Layer)
| layer_destroy (l : Layer)
| layer_set_update_proc (l : Layer)
| layer_add_child (child : Object).

(** One step of the whole program: a set-up call or a call made by one of
    the handlers. *)
Inductive Op : Type :=
| setup (c : SetupCall)
| sdk (c : Call).

(** What the host answers during start-up: the root layer's bounds, the
    display shape behind [PBL_IF_ROUND_ELSE], the two service peeks and the
    clock. *)
Record Host : Type := mk_Host {
  root_bounds : GRect;
  is_round : bool;
  connection_service_peek_pebble_app_connection : bool;
  battery_state_service_peek : BatteryChargeState;
  launch_env : Env
}.

Definition PBL_IF_ROUND_ELSE (h : Host) (a b : Z) : Z :=
  if is_round h then a else b.

(** Straight-line code over the same state, recording [Op]s. *)
Definition L : Type := State -> option (State * list Op).

Definition do (c : SetupCall) : L := fun st => Some (st, [setup c]).

Definition run (m : M unit) : L :=
  fun st =>
    match m st with
    | Some (_, st', cs) => Some (st', map sdk cs)
    | None => None
    end.

Definition then_ (a b : L) : L :=
  fun st =>
    match a st with
    | Some (st1, o1) =>
        match b st1 with
        | Some (st2, o2) => Some (st2, (o1 ++ o2)%list)
        | None => None
        end
    | None => None
    end.

Definition steps (l : list L) : L :=
  fold_right then_ (fun st => Some (st, [])) l.

(** *** [main_window_load] *)
Definition main_window_load (h : Host) : L :=
  let bounds := root_bounds h in
  steps [
    do (text_layer_create s_date_layer (mk_GRect 0 20 (size_w bounds) 50));
    do (fonts_load_custom_font s_date_font RESOURCE_ID_FONT_PERFECT_DOS_18);
    do (text_layer_set_background_color s_date_layer GColorBlack);
    do (text_layer_set_text_color s_date_layer GColorWhite);
    do (text_layer_set_text_alignment s_date_layer GTextAlignmentCenter);
    do (text_layer_set_font s_date_layer s_date_font);
    do (layer_add_child (text_layer s_date_layer));

    do (gbitmap_create_with_resource s_background_bitmap RESOURCE_ID_BACKGROUND);
    do (bitmap_layer_create s_background_layer bounds);
    do (bitmap_layer_set_bitmap s_background_layer s_background_bitmap);
    do (layer_add_child (bitmap_layer s_background_layer));

    do (text_layer_create s_time_layer
          (mk_GRect 0 (PBL_IF_ROUND_ELSE h 58 52) (size_w bounds) 50));
    do (fonts_load_custom_font s_time_font RESOURCE_ID_FONT_PERFECT_DOS_48);
    do (text_layer_set_background_color s_time_layer GColorClear);
    do (text_layer_set_text_color s_time_layer GColorBlack);
    do (text_layer_set_font s_time_layer s_time_font);
    do (text_layer_set_text_alignment s_time_layer GTextAlignmentCenter);
    do (layer_add_child (text_layer s_time_layer));

    do (text_layer_create s_weather_layer
          (mk_GRect 0 (PBL_IF_ROUND_ELSE h 125 120) (size_w bounds) 25));
    do (fonts_load_custom_font s_weather_font RESOURCE_ID_FONT_PERFECT_DOS_18);
    do (text_layer_set_font s_weather_layer s_weather_font);
    do (layer_add_child (text_layer s_weather_layer));
    do (text_layer_set_background_color s_weather_layer GColorClear);
    do (text_layer_set_text_color s_weather_layer GColorWhite);
    do (text_layer_set_text_alignment s_weather_layer GTextAlignmentCenter);

    do (layer_created s_battery_layer);
    do (layer_set_update_proc s_battery_layer);
    do (layer_add_child (plain_layer s_battery_layer));

    do (gbitmap_create_with_resource s_bt_icon_bitmap RESOURCE_ID_IMAGE_BT_ICON);
    do (bitmap_layer_create s_bt_icon_layer (mk_GRect 59 12 30 30));
    do (bitmap_layer_set_bitmap s_bt_icon_layer s_bt_icon_bitmap);
    do (layer_add_child (bitmap_layer s_bt_icon_layer));
    run (bluetooth_callback (connection_service_peek_pebble_app_connection h))
  ].

(** *** [main_window_unload] *)
Definition main_window_unload : L :=
  steps [
    do (text_layer_destroy s_time_layer);
    do (text_layer_destroy s_date_layer);
    do (fonts_unload_custom_font s_time_font);
    do (fonts_unload_custom_font s_date_font);
    do (gbitmap_destroy s_background_bitmap);
    do (bitmap_layer_destroy s_background_layer);
    do (text_layer_destroy s_weather_layer);
    do (fonts_unload_custom_font s_weather_font);
    do (layer_destroy s_battery_layer);
    do (gbitmap_destroy s_bt_icon_bitmap);
    do (bitmap_layer_destroy s_bt_icon_layer)
  ].

(** *** [init]; pushing the window runs its load handler *)
Definition init (h : Host) : L :=
  steps [
    do window_create;
    do window_set_window_handlers;
    do (window_stack_push true);
    main_window_load h;
    do (tick_timer_service_subscribe MINUTE_UNIT);
    run (update_time (launch_env h));
    do (window_set_background_color GColorBlack);
    do app_message_register_inbox_received;
    do app_message_register_inbox_dropped;
    do app_message_register_outbox_failed;
    do app_message_register_outbox_sent;
    do (app_message_open 128 128);
    do battery_state_service_subscribe;
    run (battery_callback (battery_state_service_peek h));
    do connection_service_subscribe
  ].

(** *** [deinit]; destroying the window runs its unload handler *)
Definition deinit : L :=
  steps [do window_destroy; main_window_unload].

(** *** The event loop

    What the host delivers while [app_event_loop] runs, each to the handler
    [init] and [main_window_load] registered for it. *)
Inductive Event : Type :=
| TickEvent (env : Env) (tick_time : tm) (units_changed : Z)
| BatteryEvent (state : BatteryChargeState)
| BatteryLayerDraw
| ConnectionEvent (connected : bool)
| InboxReceived (iterator : DictionaryIterator)
| InboxDropped (reason : Z)
| OutboxFailed (iterator : DictionaryIterator) (reason : Z)
| OutboxSent (iterator : DictionaryIterator).

Section MessageKeys.

Variables MESSAGE_KEY_TEMPERATURE MESSAGE_KEY_CONDITIONS : Z.

Definition dispatch (e : Event) : M unit :=
  match e with
  | TickEvent env tick_time units_changed =>
      tick_handler env tick_time units_changed
  | BatteryEvent state => battery_callback state
  | BatteryLayerDraw => battery_update_proc s_battery_layer
  | ConnectionEvent connected => bluetooth_callback connected
  | InboxReceived iterator =>
      inbox_received_callback MESSAGE_KEY_TEMPERATURE MESSAGE_KEY_CONDITIONS
        iterator
  | InboxDropped reason => inbox_dropped_callback reason
  | OutboxFailed iterator reason => outbox_failed_callback iterator reason
  | OutboxSent iterator => outbox_sent_callback iterator
  end.

Fixpoint app_event_loop (events : list Event) : M unit :=
  match events with
  | [] => ret tt
  | e :: rest => bind (dispatch e) (fun _ => app_event_loop rest)
  end.

(** *** [main] *)
Definition main (h : Host) (events : list Event) : L :=
  steps [init h; run (app_event_loop events); deinit].

(** A received message is complete when both keys are found, and readable
    when the tuples found have the types the handler reads them at. *)
Definition complete (it : DictionaryIterator) : bool :=
  match dict_find it MESSAGE_KEY_TEMPERATURE,
        dict_find it MESSAGE_KEY_CONDITIONS with
  | Some _, Some _ => true
  | _, _ => false
  end.

Definition readable (it : DictionaryIterator) : bool :=
  match dict_find it MESSAGE_KEY_TEMPERATURE,
        dict_find it MESSAGE_KEY_CONDITIONS with
  | Some temp, Some conditions =>
      match value_int32 temp, value_cstring conditions with
      | Some _, Some _ => true
      | _, _ => false
      end
  | _, _ => true
  end.

Definition event_readable (e : Event) : bool :=
  match e with
  | InboxReceived it => readable it
  | _ => true
  end.

Definition complete_message (e : Event) : bool :=
  match e with
  | InboxReceived it => complete it
  | _ => false
  end.

End MessageKeys.

(** *** Reading a trace *)

Definition sdk_calls (ops : list Op) : list Call :=
  flat_map (fun o => match o with sdk c => [c] | setup _ => [] end) ops.

Definition created (ops : list Op) : list Object :=
  flat_map (fun o =>
    match o with
    | setup window_create => [window]
    | setup (text_layer_create l _) => [text_layer l]
    | setup (fonts_load_custom_font f _) => [font f]
    | setup (gbitmap_create_with_resource b _) => [bitmap b]
    | setup (bitmap_layer_create l _) => [bitmap_layer l]
    | setup (layer_created l) => [plain_layer l]
    | _ => []
    end) ops.

Definition destroyed (ops : list Op) : list Object :=
  flat_map (fun o =>
    match o with
    | setup window_destroy => [window]
    | setup (text_layer_destroy l) => [text_layer l]
    | setup (fonts_unload_custom_font f) => [font f]
    | setup (gbitmap_destroy b) => [bitmap b]
    | setup (bitmap_layer_destroy l) => [bitmap_layer l]
    | setup (layer_destroy l) => [plain_layer l]
    | _ => []
    end) ops.

Definition half_hour_tick (e : Event) : bool :=
  match e with
  | TickEvent _ tick_time _ => tm_min tick_time mod 30 =? 0
  | _ => false
  end.

Definition disconnection (e : Event) : bool :=
  match e with
  | ConnectionEvent connected => negb connected
  | _ => false
  end.

(** Every static buffer holds a string that fits it with its NUL, and each
    text layer shows nothing or its own buffer. *)
Definition fits (size : nat) (o : option string) : Prop :=
  match o with
  | Some s => (String.length s < size)%nat
  | None => True
  end.

Definition storage_ok (st : State) : Prop :=
  fits 8 (s_buffer st) /\
  fits 16 (date_buffer st) /\
  (String.length (temperature_buffer st) < 8)%nat /\
  (String.length (conditions_buffer st) < 32)%nat /\
  (String.length (weather_layer_buffer st) < 32)%nat /\
  (text st s_time_layer = None \/ text st s_time_layer = Some buf_s_buffer) /\
  (text st s_date_layer = None \/ text st s_date_layer = Some buf_date_buffer) /\
  (text st s_weather_layer = None \/
   text st s_weather_layer = Some buf_weather_layer_buffer).

(** Decimal digits as characters. *)
Definition digit (d : Z) : ascii := ascii_of_nat (48 + Z.to_nat d).

Definition two_digits (n : Z) : string :=
  String (digit (n / 10)) (String (digit (n mod 10)) "").

(** The hour of the 12-hour clock. *)
Definition hour12 (h : Z) : Z := (h + 11) mod 12 + 1.

(** A day of the month in two columns, a single digit behind a space. *)
Definition day_columns (d : Z) : string :=
  if d <? 10 then String " " (String (digit d) "") else two_digits d.

End Lifecycle.

(** ** Sample runs *)

Module Scenarios.
Import CLib Sdk Watchface Samples Lifecycle.

(** A rectangular watch launched on 5 March at 13:05 with the phone out of
    reach and the battery at 80 percent. *)
Definition launch : Host :=
  mk_Host (mk_GRect 0 0 144 168) false false
    (mk_BatteryChargeState 80 false false) (mk_Env march_5 true).

(** A temperature too long for its buffer. *)
Definition overlong : DictionaryIterator :=
  [mk_Tuple KEY_TEMPERATURE (TupleInt32 1234567);
   mk_Tuple KEY_CONDITIONS (TupleCString "Sunny")].

(** Half an hour of events: a refresh, its answer, the phone coming back,
    a battery update with its redraw, and an incomplete message. *)
Definition afternoon : list Event :=
  [TickEvent (mk_Env half_past true) half_past 2;
   OutboxSent [mk_Tuple 0 (TupleUInt8 0)];
   InboxReceived cloudy;
   ConnectionEvent true;
   BatteryEvent (mk_BatteryChargeState 70 false false);
   BatteryLayerDraw;
   ConnectionEvent false;
   InboxReceived temperature_only;
   TickEvent (mk_Env (mk_tm 0 31 13 5 2 125 3) true)
     (mk_tm 0 31 13 5 2 125 3) 2].

(** Events without a complete weather message. *)
Definition no_answer : list Event :=
  [TickEvent (mk_Env half_past true) half_past 2;
   OutboxFailed [mk_Tuple 0 (TupleUInt8 0)] 64;
   InboxReceived temperature_only;
   InboxDropped 2].

End Scenarios.

(** ** Facts about the C library model *)

Section Strings.
Import CLib.
Local Open Scope nat_scope.

Lemma append_empty (s : string) : s ++ "" = s.
Proof. induction s as [|c s IH]; simpl; [reflexivity | now rewrite IH]. Qed.

Lemma append_shift (a b c : string) : (a ++ b) ++ c = a ++ (b ++ c).
Proof. induction a as [|x a IH]; simpl; [reflexivity | now rewrite IH]. Qed.

Lemma string_length_app (a b : string) :
  String.length (a ++ b) = String.length a + String.length b.
Proof. induction a as [|x a IH]; simpl; [reflexivity | now rewrite IH]. Qed.

Lemma take_length (n : nat) (s : string) :
  String.length (take n s) = Nat.min n (String.length s).
Proof.
  revert s; induction n as [|n IH]; intros [|c s]; simpl; try reflexivity.
  now rewrite IH.
Qed.

Lemma take_fits (n : nat) (s : string) :
  String.length s <= n -> take n s = s.
Proof.
  revert s; induction n as [|n IH]; intros [|c s]; simpl; intros H;
    try reflexivity; try lia.
  rewrite IH; [reflexivity | lia].
Qed.

Lemma take_take (n m : nat) (s : string) :
  take n (take m s) = take (Nat.min n m) s.
Proof.
  revert m s; induction n as [|n IH]; intros [|m] [|c s]; simpl;
    try reflexivity.
  now rewrite IH.
Qed.

Lemma take_app (a b : string) (n : nat) :
  take (String.length a + n) (a ++ b) = a ++ take n b.
Proof. induction a as [|x a IH]; simpl; [reflexivity | now rewrite IH]. Qed.

Lemma cstr_take (n : nat) (s : string) : cstr (take n s) = take n (cstr s).
Proof.
  revert s; induction n as [|n IH]; intros [|c s]; simpl; try reflexivity.
  destruct (Ascii.eqb c Ascii.zero); [reflexivity | now rewrite IH].
Qed.

Lemma cstr_cstr (s : string) : cstr (cstr s) = cstr s.
Proof.
  induction s as [|c s IH]; simpl; [reflexivity |].
  destruct (Ascii.eqb c Ascii.zero) eqn:E; simpl; [reflexivity |].
  now rewrite E, IH.
Qed.

Lemma cstr_app (a b : string) : cstr a = a -> cstr (a ++ b) = a ++ cstr b.
Proof.
  induction a as [|x a IH]; simpl; [reflexivity |].
  destruct (Ascii.eqb x Ascii.zero); [discriminate |].
  intros H; injection H as H; now rewrite IH.
Qed.

Lemma cstr_digits (d : Decimal.uint) :
  cstr (NilEmpty.string_of_uint d) = NilEmpty.string_of_uint d.
Proof. induction d; simpl; congruence. Qed.

Lemma cstr_dec (n : Z) : cstr (dec n) = dec n.
Proof.
  destruct n as [|p|p]; [reflexivity | apply cstr_digits |].
  change (String "-" (cstr (NilEmpty.string_of_uint (Pos.to_uint p))) =
          String "-" (NilEmpty.string_of_uint (Pos.to_uint p))).
  now rewrite cstr_digits.
Qed.

Lemma dec_nonempty (n : Z) : 1 <= String.length (dec n).
Proof.
  destruct n as [|p|p]; [simpl; lia | | simpl; lia].
  change (1 <= String.length (NilEmpty.string_of_uint (Pos.to_uint p))).
  pose proof (DecimalPos.Unsigned.to_uint_nonnil p) as H.
  destruct (Pos.to_uint p); simpl; try lia; congruence.
Qed.

(** A property checked on every integer of a finite interval. *)
Lemma Z_interval_check (P : Z -> bool) (lo : Z) (len : nat) :
  forallb (fun i => P (lo + Z.of_nat i)%Z) (seq 0 len) = true ->
  forall z : Z, (lo <= z < lo + Z.of_nat len)%Z -> P z = true.
Proof.
  intros H z Hz.
  rewrite forallb_forall in H.
  specialize (H (Z.to_nat (z - lo))).
  replace (lo + Z.of_nat (Z.to_nat (z - lo)))%Z with z in H by lia.
  apply H, in_seq; lia.
Qed.

Lemma dec_two_digits (t : Z) : (10 <= t <= 99)%Z -> String.length (dec t) = 2.
Proof.
  intros H.
  apply Nat.eqb_eq.
  apply (Z_interval_check (fun z => String.length (dec z) =? 2) 10 90);
    [vm_compute; reflexivity | lia].
Qed.

Example dec_negative : dec (-7) = "-7".
Proof. reflexivity. Qed.

Example temperature_buffer_overflow : snprintf 8 "%dF" [ArgInt 1000000] = "1000000".
Proof. reflexivity. Qed.

Example midnight_12h :
  strftime 8 "%I:%M" (mk_tm 0 7 0 1 0 125 3) = Some "12:07".
Proof. reflexivity. Qed.

Example hundred_is_exact :
  float_of_int 100 = S754_finite false 13107200 (-17).
Proof. reflexivity. Qed.

Lemma format_temperature (n : Z) : format "%dF" [ArgInt n] = dec n ++ "F".
Proof. reflexivity. Qed.

Lemma format_string (s : string) : format "%s" [ArgStr s] = cstr s.
Proof. simpl; apply append_empty. Qed.

Lemma format_pair (a b : string) :
  format "%s, %s" [ArgStr a; ArgStr b] = cstr a ++ ", " ++ cstr b.
Proof. simpl; now rewrite append_empty. Qed.

End Strings.

(** ** Inbound weather messages *)

Section Weather.
Import CLib Sdk Watchface.

Variables key_temperature key_conditions : Z.

(** A complete message: the three buffers are filled in turn and the weather
    layer is pointed at the assembled line. *)
Lemma inbox_complete_run (it : DictionaryIterator) (st : State)
    (temp cond : Tuple) (t : Z) (c : string) :
  dict_find it key_temperature = Some temp ->
  dict_find it key_conditions = Some cond ->
  value temp = TupleInt32 t ->
  value cond = TupleCString c ->
  let T := take 7 (dec t ++ "F") in
  let C := take 31 (cstr c) in
  let W := take 31 (T ++ ", " ++ C) in
  inbox_received_callback key_temperature key_conditions it st =
  Some (tt,
        store_text s_weather_layer buf_weather_layer_buffer
          (store_weather_layer_buffer W
             (store_conditions_buffer C (store_temperature_buffer T st))),
        [text_layer_set_text s_weather_layer buf_weather_layer_buffer]).
Proof.
  intros Ht Hc Vt Vc T C W.
  unfold inbox_received_callback, bind, defined, value_int32, value_cstring,
    modify, get, set_text, call.
  rewrite Ht, Hc, Vt, Vc.
  cbv beta iota.
  cbn [app temperature_buffer conditions_buffer store_temperature_buffer
       store_conditions_buffer].
  unfold snprintf.
  rewrite format_temperature, format_string, format_pair.
  change (8 - 1)%nat with 7%nat; change (32 - 1)%nat with 31%nat.
  fold T.
  assert (ET : cstr T = T).
  { unfold T. rewrite cstr_take, cstr_app by apply cstr_dec. reflexivity. }
  assert (EC : cstr C = C).
  { unfold C. now rewrite cstr_take, cstr_cstr. }
  fold C. rewrite ET, EC. reflexivity.
Qed.

Lemma weather_text_after (st : State) (T C W : string) :
  weather_text
    (store_text s_weather_layer buf_weather_layer_buffer
       (store_weather_layer_buffer W
          (store_conditions_buffer C (store_temperature_buffer T st)))) =
  Some W.
Proof. reflexivity. Qed.

(** C4: an inbound message that lacks the temperature field or the
    conditions field is a silent no-op: the handler returns with the state
    as it was (so [weather_text] keeps its prior value) and makes no SDK
    call at all, in particular writes no log line. *)
Theorem inbox_partial_is_noop (it : DictionaryIterator) (st : State)
    (H : dict_find it key_temperature = None \/
         dict_find it key_conditions = None) :
  exists st' cs,
    inbox_received_callback key_temperature key_conditions it st =
      Some (tt, st', cs) /\
    st' = st /\ cs = [] /\
    weather_text st' = weather_text st /\
    count is_log cs = 0%nat.
Proof.
  exists st, [].
  repeat split.
  unfold inbox_received_callback.
  destruct H as [H | H]; rewrite H.
  - reflexivity.
  - now destruct (dict_find it key_temperature).
Qed.

(** C5 (amended): a message with an integer temperature and a string
    conditions field replaces [weather_text] by the first 31 characters of
    T, ", ", C, where T is the first 7 characters of "<temperature>F" and C
    the first 31 characters of the conditions.  When the temperature prints
    in at most 6 characters and the whole line has at most 31, this is
    exactly "<temperature>F, <conditions>". *)
Theorem inbox_complete_sets_weather_text (it : DictionaryIterator)
    (st : State) (temp cond : Tuple) (t : Z) (c : string)
    (Ht : dict_find it key_temperature = Some temp)
    (Hc : dict_find it key_conditions = Some cond)
    (Vt : value temp = TupleInt32 t)
    (Vc : value cond = TupleCString c) :
  exists st',
    inbox_received_callback key_temperature key_conditions it st =
      Some (tt, st',
            [text_layer_set_text s_weather_layer buf_weather_layer_buffer]) /\
    weather_text st' =
      Some (take 31 (take 7 (dec t ++ "F") ++ ", " ++ take 31 (cstr c))) /\
    ((String.length (dec t) <= 6)%nat ->
     (String.length (dec t) + 3 + String.length (cstr c) <= 31)%nat ->
     weather_text st' = Some (dec t ++ "F, " ++ cstr c)).
Proof.
  eexists; split; [apply (inbox_complete_run it st temp cond t c); assumption |].
  rewrite weather_text_after.
  split; [reflexivity |].
  intros L1 L2.
  rewrite (take_fits 7 (dec t ++ "F")) by (rewrite string_length_app; simpl; lia).
  rewrite (take_fits 31 (cstr c)) by lia.
  rewrite take_fits by (rewrite !string_length_app; simpl; lia).
  now rewrite append_shift.
Qed.

(** C10: for a complete message every buffer is filled through a bounded
    [snprintf]: the stored strings leave room for the terminating NUL in the
    8-, 32- and 32-byte arrays, so the displayed line has at most 31
    characters.  A conditions string of more than 27 characters never
    appears in full, and next to a two-digit temperature exactly its first
    26 characters are shown; the only SDK call is the text update. *)
Theorem weather_buffers_bounded (it : DictionaryIterator)
    (st : State) (temp cond : Tuple) (t : Z) (c : string)
    (Ht : dict_find it key_temperature = Some temp)
    (Hc : dict_find it key_conditions = Some cond)
    (Vt : value temp = TupleInt32 t)
    (Vc : value cond = TupleCString c) :
  exists st',
    inbox_received_callback key_temperature key_conditions it st =
      Some (tt, st',
            [text_layer_set_text s_weather_layer buf_weather_layer_buffer]) /\
    (String.length (temperature_buffer st') < 8)%nat /\
    (String.length (conditions_buffer st') < 32)%nat /\
    (String.length (weather_layer_buffer st') < 32)%nat /\
    weather_text st' = Some (weather_layer_buffer st') /\
    ((27 < String.length (cstr c))%nat ->
     weather_text st' <> Some (dec t ++ "F, " ++ cstr c)) /\
    (10 <= t <= 99 ->
     weather_text st' = Some (dec t ++ "F, " ++ take 26 (cstr c))).
Proof.
  eexists; split; [apply (inbox_complete_run it st temp cond t c); assumption |].
  rewrite weather_text_after.
  cbn [temperature_buffer conditions_buffer weather_layer_buffer
       store_text store_weather_layer_buffer store_conditions_buffer
       store_temperature_buffer].
  repeat split.
  - rewrite take_length; lia.
  - rewrite take_length; lia.
  - rewrite take_length; lia.
  - intros L E.
    match type of E with
    | Some ?a = Some ?b =>
        assert (E' : String.length a = String.length b) by congruence
    end.
    rewrite take_length, !string_length_app in E'.
    pose proof (dec_nonempty t). cbn [String.length] in E'. lia.
  - intros R.
    pose proof (dec_two_digits t R) as L.
    rewrite (take_fits 7 (dec t ++ "F")) by (rewrite string_length_app; simpl; lia).
    rewrite append_shift.
    replace 31%nat with (String.length (dec t) + 29)%nat at 1 by lia.
    rewrite take_app.
    set (X := take 31 (cstr c)).
    change (take 29 ("F" ++ ", " ++ X)) with ("F, " ++ take 26 X).
    unfold X; now rewrite take_take.
Qed.

End Weather.

(** ** Minute ticks *)

Section Ticks.
Import CLib Sdk Watchface.

(** C's remainder and the mathematical [mod] vanish together. *)
Lemma rem_30_zero (m : Z) : (Z.rem m 30 =? 0) = (m mod 30 =? 0).
Proof.
  destruct (Z.eqb_spec (Z.rem m 30) 0) as [R | R];
    destruct (Z.eqb_spec (m mod 30) 0) as [D | D]; try reflexivity; exfalso.
  - apply D, Z.mod_divide, Z.rem_divide; auto; discriminate.
  - apply R, Z.rem_divide, Z.mod_divide; auto; discriminate.
Qed.

(** The state [update_time] leaves behind and the calls made. *)
Lemma tick_handler_run (env : Env) (tick_time : tm) (units_changed : Z)
    (st : State) :
  tick_handler env tick_time units_changed st =
  Some (tt,
        store_text s_date_layer buf_date_buffer
          (store_date_buffer (strftime 16 "%a %b %e" (localtime env))
             (store_text s_time_layer buf_s_buffer
                (store_s_buffer
                   (strftime 8
                      (if clock_is_24h_style env then "%H:%M" else "%I:%M")
                      (localtime env))
                   st))),
        [text_layer_set_text s_time_layer buf_s_buffer;
         text_layer_set_text s_date_layer buf_date_buffer] ++
        (if tm_min tick_time mod 30 =? 0
         then [app_message_outbox_begin; dict_write_uint8 0 0;
               app_message_outbox_send]
         else []))%list.
Proof.
  unfold tick_handler, update_time, bind, set_text, modify, call, ret.
  rewrite rem_30_zero.
  destruct (tm_min tick_time mod 30 =? 0); reflexivity.
Qed.

(** C1: on every minute tick the handler hands a weather-refresh message to
    the outbox exactly when the tick's minute [m] satisfies [m mod 30 = 0],
    and then exactly once. *)
Theorem tick_handler_weather_request (env : Env) (tick_time : tm)
    (units_changed : Z) (st : State) :
  exists st' cs,
    tick_handler env tick_time units_changed st = Some (tt, st', cs) /\
    count is_outbox_send cs =
      (if tm_min tick_time mod 30 =? 0 then 1%nat else 0%nat) /\
    List.length (sent_messages cs) = count is_outbox_send cs /\
    (In app_message_outbox_send cs <-> tm_min tick_time mod 30 = 0).
Proof.
  do 2 eexists; split; [apply tick_handler_run |].
  destruct (Z.eqb_spec (tm_min tick_time mod 30) 0) as [D | D].
  - repeat split; try reflexivity; intros _; [assumption | simpl; tauto].
  - repeat split; try reflexivity.
    + simpl; intros [H | [H | H]]; try discriminate; contradiction.
    + intros H; contradiction.
Qed.

(** C9 (amended): the weather-refresh message sent on a qualifying tick
    carries exactly one field, a dummy tuple with key 0 and the 8-bit
    unsigned value 0. *)
Theorem refresh_message_payload (env : Env) (tick_time : tm)
    (units_changed : Z) (st : State)
    (H : tm_min tick_time mod 30 = 0) :
  exists st' cs,
    tick_handler env tick_time units_changed st = Some (tt, st', cs) /\
    sent_messages cs = [[mk_Tuple 0 (TupleUInt8 0)]].
Proof.
  do 2 eexists; split; [apply tick_handler_run |].
  rewrite H; reflexivity.
Qed.

(** C7: on a minute tick at wall time 13:05 the time layer shows "13:05"
    when the 24-hour flag is set and "01:05" when it is not. *)
Theorem update_time_clock_style (now tick_time : tm) (units_changed : Z)
    (st : State)
    (Hh : tm_hour now = 13) (Hm : tm_min now = 5) :
  exists st24 cs24 st12 cs12,
    tick_handler (mk_Env now true) tick_time units_changed st =
      Some (tt, st24, cs24) /\
    current_time st24 = Some "13:05" /\
    tick_handler (mk_Env now false) tick_time units_changed st =
      Some (tt, st12, cs12) /\
    current_time st12 = Some "01:05".
Proof.
  destruct now as [sec min hour mday mon year wday]; simpl in Hh, Hm; subst.
  do 4 eexists.
  split; [apply tick_handler_run |].
  split; [vm_compute; reflexivity |].
  split; [apply tick_handler_run |].
  vm_compute; reflexivity.
Qed.

(** C8 (amended): on a minute tick on Wednesday, March 5, the date layer
    shows "Wed Mar  5": the day of the month is padded with a space to two
    columns, so two spaces separate it from the month. *)
Theorem update_time_date (env : Env) (tick_time : tm) (units_changed : Z)
    (st : State)
    (Hw : tm_wday (localtime env) = 3)
    (Hmon : tm_mon (localtime env) = 2)
    (Hd : tm_mday (localtime env) = 5) :
  exists st' cs,
    tick_handler env tick_time units_changed st = Some (tt, st', cs) /\
    current_date st' = Some "Wed Mar  5".
Proof.
  destruct env as [[sec min hour mday mon year wday] style];
    simpl in Hw, Hmon, Hd; subst.
  do 2 eexists.
  split; [apply tick_handler_run |].
  vm_compute; reflexivity.
Qed.

End Ticks.

(** ** The battery bar *)

Section Battery.
Import CLib Sdk Watchface.

(** On every 8-bit charge level the single-precision computation agrees with
    integer division: no rounding error of the quotient or of the product
    reaches the integer part. *)
Lemma bar_width_floor (p : Z) : 0 <= p <= 255 -> bar_width p = 114 * p / 100.
Proof.
  intros H.
  apply Z.eqb_eq.
  apply (Z_interval_check (fun z => bar_width z =? 114 * z / 100) 0 256);
    [vm_compute; reflexivity | lia].
Qed.

Lemma battery_update_proc_run (st : State) :
  battery_update_proc s_battery_layer st =
  Some (tt, st,
        [graphics_context_set_fill_color GColorBlack;
         graphics_fill_rect (mk_GRect 0 0 115 2);
         graphics_context_set_fill_color GColorWhite;
         graphics_fill_rect (mk_GRect 0 0 (bar_width (s_battery_level st)) 2)]).
Proof. reflexivity. Qed.

(** C2 (amended): for every battery percent [p] in [0, 100] the bar is
    drawn [114 * p / 100] pixels wide: the quotient [p / 100] scaled by 114
    with its fractional part discarded (rounded down, not to the nearest
    integer). *)
Theorem bar_width_truncates (st : State)
    (H : 0 <= s_battery_level st <= 100) :
  exists w,
    battery_update_proc s_battery_layer st =
      Some (tt, st,
            [graphics_context_set_fill_color GColorBlack;
             graphics_fill_rect (layer_get_bounds s_battery_layer);
             graphics_context_set_fill_color GColorWhite;
             graphics_fill_rect (mk_GRect 0 0 w 2)]) /\
    w = 114 * s_battery_level st / 100 /\
    100 * w <= 114 * s_battery_level st < 100 * (w + 1).
Proof.
  exists (bar_width (s_battery_level st)).
  split; [apply battery_update_proc_run |].
  rewrite bar_width_floor by lia.
  split; [reflexivity |].
  pose proof (Z.mul_div_le (114 * s_battery_level st) 100).
  pose proof (Z.mul_succ_div_gt (114 * s_battery_level st) 100).
  lia.
Qed.

(** C3 (amended): on [0, 100] the bar width never decreases as the percent
    grows; it is 0 at 0 and 114 at 100, one pixel short of the 115-pixel
    black rectangle painted behind it.  The bar is painted white from the
    origin over that rectangle. *)
Theorem bar_width_monotone (p q : Z) (H : 0 <= p <= q) (Hq : q <= 100) :
  bar_width p <= bar_width q /\
  bar_width 0 = 0 /\
  bar_width 100 = 114 /\
  size_w (layer_get_bounds s_battery_layer) = 115 /\
  (forall (st : State) (c0 : GColor),
      exists cs,
        battery_update_proc s_battery_layer st = Some (tt, st, cs) /\
        painted c0 cs =
          [(GColorBlack, layer_get_bounds s_battery_layer);
           (GColorWhite,
            mk_GRect 0 0 (bar_width (s_battery_level st))
              (size_h (layer_get_bounds s_battery_layer)))]).
Proof.
  split.
  { rewrite !bar_width_floor by lia.
    apply Z.div_le_mono; lia. }
  split; [vm_compute; reflexivity |].
  split; [vm_compute; reflexivity |].
  split; [reflexivity |].
  intros st c0; eexists; split; [apply battery_update_proc_run | reflexivity].
Qed.

End Battery.

(** ** Bluetooth connection events *)

Section Bluetooth.
Import CLib Sdk Watchface.

Lemma count_app (p : Call -> bool) (a b : list Call) :
  count p (a ++ b) = (count p a + count p b)%nat.
Proof. unfold count; now rewrite filter_app, List.length_app. Qed.

Lemma bluetooth_callback_run (connected : bool) (st : State) :
  bluetooth_callback connected st =
  Some (tt, store_hidden connected st,
        layer_set_hidden s_bt_icon_layer connected
          :: (if connected then [] else [vibes_double_pulse])).
Proof. destruct connected; reflexivity. Qed.

Lemma bluetooth_events_pulses (events : list bool) (st : State) :
  exists st' cs,
    bluetooth_events events st = Some (tt, st', cs) /\
    count is_double_pulse cs = List.length (filter negb events).
Proof.
  revert st; induction events as [|connected rest IH]; intros st.
  - exists st, []; split; reflexivity.
  - destruct (IH (store_hidden connected st)) as (st' & cs & E & N).
    cbn [bluetooth_events]; unfold bind.
    rewrite bluetooth_callback_run, E.
    do 2 eexists; split; [reflexivity |].
    rewrite count_app, N.
    destruct connected; reflexivity.
Qed.

(** C6: a bluetooth event with [connected = false] makes exactly one
    double-pulse call and one with [connected = true] makes none, whatever
    the state before the event; over any run of events there is one pulse
    per disconnected event (level-triggered). *)
Theorem bluetooth_pulse_level_triggered :
  (forall (connected : bool) (st : State),
      exists st' cs,
        bluetooth_callback connected st = Some (tt, st', cs) /\
        count is_double_pulse cs = if connected then 0%nat else 1%nat) /\
  (forall (events : list bool) (st : State),
      exists st' cs,
        bluetooth_events events st = Some (tt, st', cs) /\
        count is_double_pulse cs = List.length (filter negb events)).
Proof.
  split; [| apply bluetooth_events_pulses].
  intros connected st; do 2 eexists.
  split; [apply bluetooth_callback_run |].
  destruct connected; reflexivity.
Qed.

End Bluetooth.

(** ** Concrete runs *)

Section Runs.
Import CLib Sdk Watchface Samples.

Lemma inbox_partial_is_noop_witness :
  (dict_find temperature_only KEY_TEMPERATURE = None \/
   dict_find temperature_only KEY_CONDITIONS = None) /\
  exists st' cs,
    inbox_received_callback KEY_TEMPERATURE KEY_CONDITIONS temperature_only
      showing_cloudy = Some (tt, st', cs) /\
    st' = showing_cloudy /\ cs = [] /\
    weather_text st' = weather_text showing_cloudy /\
    count is_log cs = 0%nat.
Proof.
  assert (H : dict_find temperature_only KEY_TEMPERATURE = None \/
              dict_find temperature_only KEY_CONDITIONS = None)
    by (right; reflexivity).
  split; [exact H |].
  exact (inbox_partial_is_noop KEY_TEMPERATURE KEY_CONDITIONS
           temperature_only showing_cloudy H).
Defined.

(** Temperature 72 with conditions "Cloudy" gives exactly "72F, Cloudy". *)
Lemma inbox_complete_cloudy :
  dict_find cloudy KEY_TEMPERATURE =
    Some (mk_Tuple KEY_TEMPERATURE (TupleInt32 72)) /\
  dict_find cloudy KEY_CONDITIONS =
    Some (mk_Tuple KEY_CONDITIONS (TupleCString "Cloudy")) /\
  exists st',
    inbox_received_callback KEY_TEMPERATURE KEY_CONDITIONS cloudy initial =
      Some (tt, st',
            [text_layer_set_text s_weather_layer buf_weather_layer_buffer]) /\
    weather_text st' = Some "72F, Cloudy".
Proof.
  split; [reflexivity |]. split; [reflexivity |].
  destruct (inbox_complete_sets_weather_text KEY_TEMPERATURE KEY_CONDITIONS
              cloudy initial _ _ 72 "Cloudy"
              eq_refl eq_refl eq_refl eq_refl) as (st' & E & _ & F).
  exists st'; split; [exact E |].
  apply F; vm_compute; lia.
Defined.

(** C5 as stated fails: a long conditions string is cut at the buffer's
    end. *)
Lemma long_conditions_cut :
  exists st' cs,
    inbox_received_callback KEY_TEMPERATURE KEY_CONDITIONS stormy initial =
      Some (tt, st', cs) /\
    weather_text st' = Some "72F, Thunderstorms with heavy r" /\
    weather_text st' <>
      Some (dec 72 ++ "F, " ++ "Thunderstorms with heavy rain and hail").
Proof.
  do 2 eexists; split; [reflexivity |].
  split; [vm_compute; reflexivity |].
  vm_compute; discriminate.
Qed.

Lemma weather_buffers_bounded_witness :
  exists st',
    inbox_received_callback KEY_TEMPERATURE KEY_CONDITIONS stormy initial =
      Some (tt, st',
            [text_layer_set_text s_weather_layer buf_weather_layer_buffer]) /\
    (String.length (weather_layer_buffer st') < 32)%nat /\
    weather_text st' = Some "72F, Thunderstorms with heavy r".
Proof.
  destruct (weather_buffers_bounded KEY_TEMPERATURE KEY_CONDITIONS
              stormy initial _ _ 72 "Thunderstorms with heavy rain and hail"
              eq_refl eq_refl eq_refl eq_refl)
    as (st' & E & _ & _ & L & _ & _ & F).
  exists st'; split; [exact E |]. split; [exact L |].
  apply F; lia.
Defined.

Lemma refresh_message_payload_witness :
  tm_min half_past mod 30 = 0 /\
  exists st' cs,
    tick_handler (mk_Env half_past true) half_past 2 initial =
      Some (tt, st', cs) /\
    sent_messages cs = [[mk_Tuple 0 (TupleUInt8 0)]].
Proof.
  split; [reflexivity |].
  exact (refresh_message_payload (mk_Env half_past true) half_past 2 initial
           eq_refl).
Defined.

(** C9 as stated fails: the message sent on the hour is not empty. *)
Lemma refresh_message_has_field :
  exists st' cs,
    tick_handler (mk_Env on_the_hour true) on_the_hour 2 initial =
      Some (tt, st', cs) /\
    sent_messages cs = [[mk_Tuple 0 (TupleUInt8 0)]] /\
    sent_messages cs <> [[]].
Proof.
  do 2 eexists; split; [reflexivity |].
  split; [reflexivity | discriminate].
Qed.

Lemma update_time_clock_style_witness :
  tm_hour march_5 = 13 /\ tm_min march_5 = 5 /\
  exists st24 cs24 st12 cs12,
    tick_handler (mk_Env march_5 true) march_5 2 initial =
      Some (tt, st24, cs24) /\
    current_time st24 = Some "13:05" /\
    tick_handler (mk_Env march_5 false) march_5 2 initial =
      Some (tt, st12, cs12) /\
    current_time st12 = Some "01:05".
Proof.
  split; [reflexivity |]. split; [reflexivity |].
  exact (update_time_clock_style march_5 march_5 2 initial eq_refl eq_refl).
Defined.

Lemma update_time_date_witness :
  tm_wday march_5 = 3 /\ tm_mon march_5 = 2 /\ tm_mday march_5 = 5 /\
  exists st' cs,
    tick_handler (mk_Env march_5 true) march_5 2 initial =
      Some (tt, st', cs) /\
    current_date st' = Some "Wed Mar  5".
Proof.
  repeat (split; [reflexivity |]).
  exact (update_time_date (mk_Env march_5 true) march_5 2 initial
           eq_refl eq_refl eq_refl).
Defined.

(** C8 as stated fails: the date shown is not "Wed Mar 5". *)
Lemma date_has_two_spaces :
  exists st' cs,
    tick_handler (mk_Env march_5 true) march_5 2 initial =
      Some (tt, st', cs) /\
    current_date st' = Some "Wed Mar  5" /\
    current_date st' <> Some "Wed Mar 5".
Proof.
  do 2 eexists; split; [reflexivity |].
  split; [vm_compute; reflexivity |].
  vm_compute; discriminate.
Qed.

Lemma bar_width_truncates_witness :
  0 <= s_battery_level (store_battery_level 20 initial) <= 100 /\
  exists w,
    battery_update_proc s_battery_layer (store_battery_level 20 initial) =
      Some (tt, store_battery_level 20 initial,
            [graphics_context_set_fill_color GColorBlack;
             graphics_fill_rect (layer_get_bounds s_battery_layer);
             graphics_context_set_fill_color GColorWhite;
             graphics_fill_rect (mk_GRect 0 0 w 2)]) /\
    w = 22.
Proof.
  assert (H : 0 <= s_battery_level (store_battery_level 20 initial) <= 100)
    by (simpl; lia).
  split; [exact H |].
  destruct (bar_width_truncates (store_battery_level 20 initial) H)
    as (w & E & W & _).
  exists w; split; [exact E |].
  rewrite W; reflexivity.
Defined.

(** C2 as stated fails: at 20 percent the exact width is 22.8 pixels and
    the bar is 22 wide, which is not a nearest integer. *)
Lemma bar_width_not_rounded :
  battery_update_proc s_battery_layer (store_battery_level 20 initial) =
    Some (tt, store_battery_level 20 initial,
          [graphics_context_set_fill_color GColorBlack;
           graphics_fill_rect (layer_get_bounds s_battery_layer);
           graphics_context_set_fill_color GColorWhite;
           graphics_fill_rect (mk_GRect 0 0 22 2)]) /\
  ~ nearest_integer (20 * 114) 100 22.
Proof.
  split; [vm_compute; reflexivity |].
  unfold nearest_integer; lia.
Qed.

Lemma bar_width_monotone_witness :
  0 <= 20 <= 50 /\ 50 <= 100 /\ bar_width 20 <= bar_width 50.
Proof.
  split; [lia |]. split; [lia |].
  apply (bar_width_monotone 20 50); lia.
Defined.

(** C3 as stated fails: at 100 percent the bar is narrower than the
    rectangle painted behind it. *)
Lemma full_bar_short_of_track :
  battery_update_proc s_battery_layer (store_battery_level 100 initial) =
    Some (tt, store_battery_level 100 initial,
          [graphics_context_set_fill_color GColorBlack;
           graphics_fill_rect (mk_GRect 0 0 115 2);
           graphics_context_set_fill_color GColorWhite;
           graphics_fill_rect (mk_GRect 0 0 114 2)]) /\
  size_w (mk_GRect 0 0 114 2) <> size_w (layer_get_bounds s_battery_layer).
Proof.
  split; [vm_compute; reflexivity |].
  vm_compute; discriminate.
Qed.

End Runs.

(** ** Further properties: the clock *)

Section Clock.
Import CLib Sdk Watchface Lifecycle.

Lemma Z_rectangle_check (P : Z -> Z -> bool) (lo1 lo2 : Z) (len1 len2 : nat) :
  forallb (fun i =>
    forallb (fun j => P (lo1 + Z.of_nat i) (lo2 + Z.of_nat j)) (seq 0 len2))
    (seq 0 len1) = true ->
  forall a b : Z,
    lo1 <= a < lo1 + Z.of_nat len1 ->
    lo2 <= b < lo2 + Z.of_nat len2 ->
    P a b = true.
Proof.
  intros H a b Ha Hb.
  apply (Z_interval_check (fun y => P a y) lo2 len2); [| exact Hb].
  apply (Z_interval_check
           (fun x => forallb (fun j => P x (lo2 + Z.of_nat j)) (seq 0 len2))
           lo1 len1 H a Ha).
Qed.

(** What [update_time] does, whatever the clock reads. *)
Lemma update_time_run (env : Env) (st : State) :
  update_time env st =
  Some (tt,
        store_text s_date_layer buf_date_buffer
          (store_date_buffer (strftime 16 "%a %b %e" (localtime env))
             (store_text s_time_layer buf_s_buffer
                (store_s_buffer
                   (strftime 8
                      (if clock_is_24h_style env then "%H:%M" else "%I:%M")
                      (localtime env))
                   st))),
        [text_layer_set_text s_time_layer buf_s_buffer;
         text_layer_set_text s_date_layer buf_date_buffer]).
Proof. reflexivity. Qed.

Lemma strftime_24h (h m : Z) (sec mday mon year wday : Z) :
  0 <= h <= 23 -> 0 <= m <= 59 ->
  strftime 8 "%H:%M" (mk_tm sec m h mday mon year wday) =
  Some (two_digits h ++ ":" ++ two_digits m).
Proof.
  intros Hh Hm.
  change (strftime 8 "%H:%M" (mk_tm sec m h mday mon year wday))
    with (strftime 8 "%H:%M" (mk_tm 0 m h 0 0 0 0)).
  assert (E : match strftime 8 "%H:%M" (mk_tm 0 m h 0 0 0 0) with
              | Some s => String.eqb s (two_digits h ++ ":" ++ two_digits m)
              | None => false
              end = true).
  { apply (Z_rectangle_check
             (fun h m =>
                match strftime 8 "%H:%M" (mk_tm 0 m h 0 0 0 0) with
                | Some s => String.eqb s (two_digits h ++ ":" ++ two_digits m)
                | None => false
                end) 0 0 24 60); [vm_compute; reflexivity | lia | lia]. }
  destruct (strftime 8 "%H:%M" (mk_tm 0 m h 0 0 0 0)); [| discriminate].
  apply String.eqb_eq in E; now subst.
Qed.

Lemma strftime_12h (h m : Z) (sec mday mon year wday : Z) :
  0 <= h <= 23 -> 0 <= m <= 59 ->
  strftime 8 "%I:%M" (mk_tm sec m h mday mon year wday) =
  Some (two_digits (hour12 h) ++ ":" ++ two_digits m).
Proof.
  intros Hh Hm.
  change (strftime 8 "%I:%M" (mk_tm sec m h mday mon year wday))
    with (strftime 8 "%I:%M" (mk_tm 0 m h 0 0 0 0)).
  assert (E : match strftime 8 "%I:%M" (mk_tm 0 m h 0 0 0 0) with
              | Some s =>
                  String.eqb s (two_digits (hour12 h) ++ ":" ++ two_digits m)
              | None => false
              end = true).
  { apply (Z_rectangle_check
             (fun h m =>
                match strftime 8 "%I:%M" (mk_tm 0 m h 0 0 0 0) with
                | Some s =>
                    String.eqb s
                      (two_digits (hour12 h) ++ ":" ++ two_digits m)
                | None => false
                end) 0 0 24 60); [vm_compute; reflexivity | lia | lia]. }
  destruct (strftime 8 "%I:%M" (mk_tm 0 m h 0 0 0 0)); [| discriminate].
  apply String.eqb_eq in E; now subst.
Qed.

Lemma strftime_date (w mo d : Z) (sec m h year : Z) :
  0 <= w <= 6 -> 0 <= mo <= 11 -> 1 <= d <= 31 ->
  strftime 16 "%a %b %e" (mk_tm sec m h d mo year w) =
  Some (nth (Z.to_nat w) wday_abbrev "" ++ " " ++
        nth (Z.to_nat mo) mon_abbrev "" ++ " " ++ day_columns d) /\
  String.length
    (nth (Z.to_nat w) wday_abbrev "" ++ " " ++
     nth (Z.to_nat mo) mon_abbrev "" ++ " " ++ day_columns d) = 10%nat.
Proof.
  intros Hw Hmo Hd.
  change (strftime 16 "%a %b %e" (mk_tm sec m h d mo year w))
    with (strftime 16 "%a %b %e" (mk_tm 0 0 0 d mo 0 w)).
  pose (check := fun w mo d =>
    let expected := nth (Z.to_nat w) wday_abbrev "" ++ " " ++
                    nth (Z.to_nat mo) mon_abbrev "" ++ " " ++ day_columns d in
    match strftime 16 "%a %b %e" (mk_tm 0 0 0 d mo 0 w) with
    | Some s => String.eqb s expected && Nat.eqb (String.length expected) 10
    | None => false
    end).
  assert (E : check w mo d = true).
  { apply (Z_interval_check (fun d => check w mo d) 1 31); [| lia].
    apply (Z_rectangle_check
             (fun w mo =>
                forallb (fun i => check w mo (1 + Z.of_nat i)) (seq 0 31))
             0 0 7 12); [vm_compute; reflexivity | lia | lia]. }
  unfold check in E; cbv zeta in E.
  destruct (strftime 16 "%a %b %e" (mk_tm 0 0 0 d mo 0 w)); [| discriminate].
  apply andb_true_iff in E; destruct E as [E1 E2].
  apply String.eqb_eq in E1; apply Nat.eqb_eq in E2.
  subst; split; [reflexivity | exact E2].
Qed.

Lemma shown_after_update_time (T D : option string) (st : State) :
  let st' :=
    store_text s_date_layer buf_date_buffer
      (store_date_buffer D
         (store_text s_time_layer buf_s_buffer (store_s_buffer T st))) in
  current_time st' = T /\ current_date st' = D.
Proof. split; reflexivity. Qed.

(** X1: in 24-hour style [update_time] shows the wall time as two digits of
    the hour, a colon and two digits of the minute, for every valid time of
    day. *)
Theorem time_shown_24h (env : Env) (st : State)
    (Hs : clock_is_24h_style env = true)
    (Hh : 0 <= tm_hour (localtime env) <= 23)
    (Hm : 0 <= tm_min (localtime env) <= 59) :
  exists st',
    update_time env st =
      Some (tt, st',
            [text_layer_set_text s_time_layer buf_s_buffer;
             text_layer_set_text s_date_layer buf_date_buffer]) /\
    current_time st' =
      Some (two_digits (tm_hour (localtime env)) ++ ":" ++
            two_digits (tm_min (localtime env))).
Proof.
  eexists; split; [apply update_time_run |].
  rewrite (proj1 (shown_after_update_time _ _ st)), Hs.
  destruct env as [[sec m h mday mon year wday] style].
  cbn [localtime tm_hour tm_min] in Hh, Hm |- *.
  now apply strftime_24h.
Qed.

(** X2: in 12-hour style the hour shown is the hour of the 12-hour clock,
    between 01 and 12 and never 00; times twelve hours apart are shown
    alike, since no AM/PM mark is printed. *)
Theorem time_shown_12h (env : Env) (st : State)
    (Hs : clock_is_24h_style env = false)
    (Hh : 0 <= tm_hour (localtime env) <= 23)
    (Hm : 0 <= tm_min (localtime env) <= 59) :
  exists st',
    update_time env st =
      Some (tt, st',
            [text_layer_set_text s_time_layer buf_s_buffer;
             text_layer_set_text s_date_layer buf_date_buffer]) /\
    current_time st' =
      Some (two_digits (hour12 (tm_hour (localtime env))) ++ ":" ++
            two_digits (tm_min (localtime env))) /\
    1 <= hour12 (tm_hour (localtime env)) <= 12 /\
    hour12 (tm_hour (localtime env) + 12) = hour12 (tm_hour (localtime env)).
Proof.
  eexists; split; [apply update_time_run |].
  rewrite (proj1 (shown_after_update_time _ _ st)), Hs.
  destruct env as [[sec m h mday mon year wday] style].
  cbn [localtime tm_hour tm_min] in Hh, Hm |- *.
  split; [now apply strftime_12h |].
  unfold hour12; split.
  - pose proof (Z.mod_pos_bound (h + 11) 12); lia.
  - replace (h + 12 + 11) with (h + 11 + 1 * 12) by lia.
    now rewrite Z.mod_add.
Qed.

(** X3: for every valid weekday, month and day of month the date shown is
    the weekday's and the month's three-letter names and the day in two
    columns, separated by single spaces: always exactly 10 characters, so
    the 16-byte buffer is never too small. *)
Theorem date_shown (env : Env) (st : State)
    (Hw : 0 <= tm_wday (localtime env) <= 6)
    (Hmo : 0 <= tm_mon (localtime env) <= 11)
    (Hd : 1 <= tm_mday (localtime env) <= 31) :
  exists st' s,
    update_time env st =
      Some (tt, st',
            [text_layer_set_text s_time_layer buf_s_buffer;
             text_layer_set_text s_date_layer buf_date_buffer]) /\
    current_date st' = Some s /\
    s = nth (Z.to_nat (tm_wday (localtime env))) wday_abbrev "" ++ " " ++
        nth (Z.to_nat (tm_mon (localtime env))) mon_abbrev "" ++ " " ++
        day_columns (tm_mday (localtime env)) /\
    String.length s = 10%nat.
Proof.
  destruct env as [[sec m h mday mon year wday] style].
  cbn [localtime tm_wday tm_mon tm_mday] in Hw, Hmo, Hd |- *.
  do 2 eexists; split; [apply update_time_run |].
  rewrite (proj2 (shown_after_update_time _ _ st)).
  cbn [localtime].
  destruct (strftime_date wday mon mday sec m h year Hw Hmo Hd) as [E L].
  split; [exact E |]. split; [reflexivity | exact L].
Qed.

End Clock.

(** ** Further properties: what each handler leaves alone *)

Section Frames.
Import CLib Sdk Watchface Lifecycle.

(** X4: the strings a tick puts on the time and date layers come from the
    wall clock and the 24-hour setting alone: the handler's [tick_time] and
    [units_changed] arguments do not influence the state it leaves. *)
Theorem tick_shows_wall_clock (env : Env) (t1 t2 : tm) (u1 u2 : Z)
    (st : State) :
  exists st' cs1 cs2,
    tick_handler env t1 u1 st = Some (tt, st', cs1) /\
    tick_handler env t2 u2 st = Some (tt, st', cs2) /\
    current_time st' =
      strftime 8 (if clock_is_24h_style env then "%H:%M" else "%I:%M")
        (localtime env) /\
    current_date st' = strftime 16 "%a %b %e" (localtime env).
Proof.
  do 3 eexists.
  split; [apply tick_handler_run |].
  split; [apply tick_handler_run |].
  apply shown_after_update_time.
Qed.

(** X5: a tick never touches the weather line, the battery level or the
    bluetooth icon, and it makes no haptic, logging or drawing call. *)
Theorem tick_leaves_weather_and_battery (env : Env) (tick_time : tm)
    (units_changed : Z) (st : State) (c0 : GColor)
    (Hok : storage_ok st) :
  exists st' cs,
    tick_handler env tick_time units_changed st = Some (tt, st', cs) /\
    weather_text st' = weather_text st /\
    s_battery_level st' = s_battery_level st /\
    bt_icon_hidden st' = bt_icon_hidden st /\
    count is_double_pulse cs = 0%nat /\
    count is_log cs = 0%nat /\
    painted c0 cs = [].
Proof.
  do 2 eexists; split; [apply tick_handler_run |].
  set (T := strftime 8 _ _); set (D := strftime 16 _ _); clearbody T D.
  split.
  { unfold weather_text, shown.
    change (text (store_text s_date_layer buf_date_buffer
                    (store_date_buffer D
                       (store_text s_time_layer buf_s_buffer
                          (store_s_buffer T st)))) s_weather_layer)
      with (text st s_weather_layer).
    destruct Hok as (_ & _ & _ & _ & _ & _ & _ & [W | W]); rewrite W;
      reflexivity. }
  split; [reflexivity |]. split; [reflexivity |].
  destruct (tm_min tick_time mod 30 =? 0); repeat split; reflexivity.
Qed.

End Frames.

(** ** Further properties: weather messages *)

Section WeatherMore.
Import CLib Sdk Watchface Lifecycle.

Variables key_temperature key_conditions : Z.

Lemma take_prefix (n : nat) (a b : string) :
  (n <= String.length a)%nat -> take n (a ++ b) = take n a.
Proof.
  revert a; induction n as [|n IH]; intros [|x a] H; simpl in *;
    try reflexivity; try lia.
  rewrite IH; [reflexivity | lia].
Qed.

(** X6: of two complete messages the later one alone decides the weather
    line: what is shown after both is what the second would have shown by
    itself. *)
Theorem inbox_last_message_wins (it1 it2 : DictionaryIterator) (st : State)
    (temp1 cond1 temp2 cond2 : Tuple) (t1 t2 : Z) (c1 c2 : string)
    (Ht1 : dict_find it1 key_temperature = Some temp1)
    (Hc1 : dict_find it1 key_conditions = Some cond1)
    (Vt1 : value temp1 = TupleInt32 t1)
    (Vc1 : value cond1 = TupleCString c1)
    (Ht2 : dict_find it2 key_temperature = Some temp2)
    (Hc2 : dict_find it2 key_conditions = Some cond2)
    (Vt2 : value temp2 = TupleInt32 t2)
    (Vc2 : value cond2 = TupleCString c2) :
  exists st1 cs1 st2 cs2 st2' cs2',
    inbox_received_callback key_temperature key_conditions it1 st =
      Some (tt, st1, cs1) /\
    inbox_received_callback key_temperature key_conditions it2 st1 =
      Some (tt, st2, cs2) /\
    inbox_received_callback key_temperature key_conditions it2 st =
      Some (tt, st2', cs2') /\
    weather_text st2 = weather_text st2'.
Proof.
  do 6 eexists.
  split; [apply (inbox_complete_run _ _ it1 st temp1 cond1 t1 c1); assumption |].
  split; [apply (inbox_complete_run _ _ it2 _ temp2 cond2 t2 c2); assumption |].
  split; [apply (inbox_complete_run _ _ it2 st temp2 cond2 t2 c2); assumption |].
  now rewrite !weather_text_after.
Qed.

(** X7: the temperature buffer keeps the unit letter only when the number
    prints in at most 6 characters; a longer number fills the 8-byte buffer
    by itself and the "F" is cut off. *)
Theorem temperature_unit_cut (it : DictionaryIterator) (st : State)
    (temp cond : Tuple) (t : Z) (c : string)
    (Ht : dict_find it key_temperature = Some temp)
    (Hc : dict_find it key_conditions = Some cond)
    (Vt : value temp = TupleInt32 t)
    (Vc : value cond = TupleCString c) :
  exists st' cs,
    inbox_received_callback key_temperature key_conditions it st =
      Some (tt, st', cs) /\
    temperature_buffer st' =
      if (String.length (dec t) <=? 6)%nat
      then dec t ++ "F" else take 7 (dec t).
Proof.
  do 2 eexists.
  split; [apply (inbox_complete_run _ _ it st temp cond t c); assumption |].
  cbn [temperature_buffer store_text store_weather_layer_buffer
       store_conditions_buffer store_temperature_buffer].
  destruct (Nat.leb_spec (String.length (dec t)) 6) as [L | L].
  - apply take_fits. rewrite string_length_app; simpl; lia.
  - apply take_prefix; lia.
Qed.

End WeatherMore.

(** ** Further properties: battery and bluetooth *)

Section Gauges.
Import CLib Sdk Watchface Lifecycle.

(** X8: a battery event stores the reported level and asks for one redraw
    of the battery layer, leaving the texts alone; the redraw then paints
    the layer black and over it a white bar [114 * p / 100] pixels wide. *)
Theorem battery_event_then_draw (state : BatteryChargeState) (st : State)
    (c0 : GColor)
    (H : 0 <= charge_percent state <= 255) :
  exists st1 cs2,
    battery_callback state st =
      Some (tt, st1, [layer_mark_dirty s_battery_layer]) /\
    s_battery_level st1 = charge_percent state /\
    current_time st1 = current_time st /\
    current_date st1 = current_date st /\
    weather_text st1 = weather_text st /\
    battery_update_proc s_battery_layer st1 = Some (tt, st1, cs2) /\
    painted c0 cs2 =
      [(GColorBlack, layer_get_bounds s_battery_layer);
       (GColorWhite, mk_GRect 0 0 (114 * charge_percent state / 100) 2)].
Proof.
  do 2 eexists.
  split; [reflexivity |].
  do 4 (split; [reflexivity |]).
  split; [apply battery_update_proc_run |].
  cbn [s_battery_level store_battery_level].
  now rewrite bar_width_floor.
Qed.

(** X9: on the 8-bit range of charge levels a higher level always gives a
    strictly wider bar, so no two levels are drawn alike. *)
Theorem bar_width_strictly_increasing (p q : Z)
    (Hp : 0 <= p) (Hpq : p < q) (Hq : q <= 255) :
  bar_width p < bar_width q.
Proof.
  rewrite !bar_width_floor by lia.
  apply Z.lt_le_trans with ((114 * p + 100) / 100).
  - replace (114 * p + 100) with (114 * p + 1 * 100) by lia.
    rewrite Z.div_add by lia. lia.
  - apply Z.div_le_mono; lia.
Qed.

(** X10: the width is not clamped: the bar stays within the 115-pixel layer
    exactly for levels up to 101, and from 102 on it is wider than the
    layer it is drawn in.  It is never negative. *)
Theorem bar_exceeds_layer_above_101 (p : Z) (H : 0 <= p <= 255) :
  0 <= bar_width p /\
  (bar_width p <= size_w (layer_get_bounds s_battery_layer) <-> p <= 101).
Proof.
  rewrite bar_width_floor by lia.
  change (size_w (layer_get_bounds s_battery_layer)) with 115.
  pose proof (Z.mul_div_le (114 * p) 100).
  pose proof (Z.mul_succ_div_gt (114 * p) 100).
  lia.
Qed.

Lemma last_default_irrelevant {A} (a : A) (l : list A) (d d' : A) :
  last (a :: l) d = last (a :: l) d'.
Proof.
  revert a; induction l as [|b l IH]; intros a; [reflexivity |].
  change (last (b :: l) d = last (b :: l) d'); apply IH.
Qed.

(** X11: the bluetooth icon follows the most recent connection event: after
    any run of events it is hidden exactly when the last one reported a
    connection, and it keeps its state when there was no event. *)
Theorem bluetooth_icon_follows_last_event (events : list bool) (st : State) :
  exists st' cs,
    bluetooth_events events st = Some (tt, st', cs) /\
    bt_icon_hidden st' = last events (bt_icon_hidden st) /\
    weather_text st' = weather_text st /\
    s_battery_level st' = s_battery_level st.
Proof.
  revert st; induction events as [|connected rest IH]; intros st.
  - exists st, []; repeat split; reflexivity.
  - destruct (IH (store_hidden connected st)) as (st' & cs & E & Hh & Hw & Hb).
    cbn [bluetooth_events]; unfold bind.
    rewrite bluetooth_callback_run, E.
    do 2 eexists; split; [reflexivity |].
    split; [| split; [exact Hw | exact Hb]].
    rewrite Hh.
    destruct rest as [|b rest]; [reflexivity |].
    change (last (connected :: b :: rest) (bt_icon_hidden st))
      with (last (b :: rest) (bt_icon_hidden st)).
    apply last_default_irrelevant.
Qed.

End Gauges.

(** ** Further properties: start-up and shutdown *)

Section Startup.
Import CLib Sdk Watchface Lifecycle.

Lemma then_run (a b : L) (st s1 s2 : State) (o1 o2 : list Op) :
  a st = Some (s1, o1) -> b s1 = Some (s2, o2) ->
  then_ a b st = Some (s2, (o1 ++ o2)%list).
Proof. intros Ha Hb; unfold then_; now rewrite Ha, Hb. Qed.

Lemma run_run (m : M unit) (st st' : State) (cs : list Call) :
  m st = Some (tt, st', cs) -> run m st = Some (st', map sdk cs).
Proof. intros H; unfold run; now rewrite H. Qed.

Lemma sdk_calls_app (a b : list Op) :
  sdk_calls (a ++ b) = (sdk_calls a ++ sdk_calls b)%list.
Proof. apply flat_map_app. Qed.

Lemma sdk_calls_sdk (cs : list Call) : sdk_calls (map sdk cs) = cs.
Proof. induction cs as [|c cs IH]; simpl; [reflexivity | now rewrite IH]. Qed.

Lemma created_app (a b : list Op) :
  created (a ++ b) = (created a ++ created b)%list.
Proof. apply flat_map_app. Qed.

Lemma destroyed_app (a b : list Op) :
  destroyed (a ++ b) = (destroyed a ++ destroyed b)%list.
Proof. apply flat_map_app. Qed.

Lemma created_sdk (cs : list Call) : created (map sdk cs) = [].
Proof. induction cs as [|c cs IH]; simpl; [reflexivity | exact IH]. Qed.

Lemma destroyed_sdk (cs : list Call) : destroyed (map sdk cs) = [].
Proof. induction cs as [|c cs IH]; simpl; [reflexivity | exact IH]. Qed.

(** The objects of one window, in the order [main_window_load] makes them. *)
Lemma main_window_load_run (h : Host) (st : State) :
  exists ops,
    main_window_load h st =
      Some (store_hidden (connection_service_peek_pebble_app_connection h) st,
            ops) /\
    created ops =
      [text_layer s_date_layer; font s_date_font;
       bitmap s_background_bitmap; bitmap_layer s_background_layer;
       text_layer s_time_layer; font s_time_font;
       text_layer s_weather_layer; font s_weather_font;
       plain_layer s_battery_layer;
       bitmap s_bt_icon_bitmap; bitmap_layer s_bt_icon_layer] /\
    destroyed ops = [] /\
    sdk_calls ops =
      layer_set_hidden Watchface.s_bt_icon_layer
        (connection_service_peek_pebble_app_connection h)
        :: (if connection_service_peek_pebble_app_connection h
            then [] else [vibes_double_pulse]).
Proof.
  destruct h as [b r c bat env]; destruct c;
    eexists; (split; [reflexivity |]); repeat split; reflexivity.
Qed.

Lemma main_window_unload_run (st : State) :
  exists ops,
    main_window_unload st = Some (st, ops) /\
    created ops = [] /\
    destroyed ops =
      [text_layer s_time_layer; text_layer s_date_layer;
       font s_time_font; font s_date_font;
       bitmap s_background_bitmap; bitmap_layer s_background_layer;
       text_layer s_weather_layer; font s_weather_font;
       plain_layer s_battery_layer;
       bitmap s_bt_icon_bitmap; bitmap_layer s_bt_icon_layer] /\
    sdk_calls ops = [].
Proof. eexists; split; [reflexivity |]; repeat split; reflexivity. Qed.

(** X12: every object [main_window_load] creates is destroyed by
    [main_window_unload], and nothing else is: the two handlers name the
    same eleven objects, each exactly once, and unloading changes no
    program state. *)
Theorem load_unload_balanced (h : Host) (st : State) :
  exists st1 ops1 ops2,
    main_window_load h st = Some (st1, ops1) /\
    main_window_unload st1 = Some (st1, ops2) /\
    NoDup (created ops1) /\
    NoDup (destroyed ops2) /\
    (forall o : Object, In o (created ops1) <-> In o (destroyed ops2)) /\
    List.length (created ops1) = 11%nat /\
    destroyed ops1 = [] /\ created ops2 = [].
Proof.
  destruct (main_window_load_run h st) as (ops1 & E1 & C1 & D1 & _).
  destruct (main_window_unload_run
              (store_hidden (connection_service_peek_pebble_app_connection h)
                 st)) as (ops2 & E2 & C2 & D2 & _).
  do 3 eexists; split; [exact E1 |]. split; [exact E2 |].
  rewrite C1, D2, D1, C2.
  split; [| split; [| split; [| repeat split]]].
  - repeat constructor; simpl; intuition discriminate.
  - repeat constructor; simpl; intuition discriminate.
  - intros o; simpl; tauto.
Qed.

Lemma strftime_fits (n : nat) (fmt : string) (t : tm) :
  fits n (strftime n fmt t).
Proof.
  unfold strftime.
  destruct (expand fmt t) as [s |]; [| exact I].
  destruct (Nat.ltb_spec (String.length s) n); [assumption | exact I].
Qed.

Lemma storage_ok_initial : storage_ok initial.
Proof. unfold storage_ok; simpl; repeat split; auto; lia. Qed.

(** [update_time] keeps the storage within its bounds and leaves the
    weather line as it was. *)
Lemma update_time_ok (env : Env) (st : State) :
  storage_ok st ->
  exists st',
    update_time env st =
      Some (tt, st',
            [text_layer_set_text s_time_layer buf_s_buffer;
             text_layer_set_text s_date_layer buf_date_buffer]) /\
    storage_ok st' /\
    weather_text st' = weather_text st /\
    s_battery_level st' = s_battery_level st /\
    bt_icon_hidden st' = bt_icon_hidden st /\
    current_time st' =
      strftime 8 (if clock_is_24h_style env then "%H:%M" else "%I:%M")
        (localtime env) /\
    current_date st' = strftime 16 "%a %b %e" (localtime env).
Proof.
  intros (B1 & B2 & B3 & B4 & B5 & P1 & P2 & P3).
  eexists; split; [apply update_time_run |].
  pose proof (strftime_fits 8
                (if clock_is_24h_style env then "%H:%M" else "%I:%M")
                (localtime env)) as FT.
  pose proof (strftime_fits 16 "%a %b %e" (localtime env)) as FD.
  set (T := strftime 8 _ _) in *; set (D := strftime 16 _ _) in *.
  clearbody T D.
  split.
  { unfold storage_ok; cbn.
    repeat split; auto. }
  split.
  { unfold weather_text, shown; cbn.
    destruct P3 as [W | W]; rewrite W; reflexivity. }
  repeat split; reflexivity.
Qed.

End Startup.

(** ** Further properties: whole runs of the program *)

Section Runs2.
Import CLib Sdk Watchface Lifecycle.

Variables key_temperature key_conditions : Z.

Lemma inbox_partial_run (it : DictionaryIterator) (st : State) :
  complete key_temperature key_conditions it = false ->
  inbox_received_callback key_temperature key_conditions it st =
  Some (tt, st, []).
Proof.
  unfold complete, inbox_received_callback.
  destruct (dict_find it key_temperature);
    destruct (dict_find it key_conditions); try discriminate; reflexivity.
Qed.

(** One event, handled to completion. *)
Lemma dispatch_ok (e : Event) (st : State) :
  event_readable key_temperature key_conditions e = true ->
  storage_ok st ->
  exists st' cs,
    dispatch key_temperature key_conditions e st = Some (tt, st', cs) /\
    storage_ok st' /\
    count is_outbox_send cs = (if half_hour_tick e then 1%nat else 0%nat) /\
    count is_double_pulse cs = (if disconnection e then 1%nat else 0%nat) /\
    (complete_message key_temperature key_conditions e = false ->
     weather_text st' = weather_text st).
Proof.
  intros R Hok.
  destruct e as [env tick_time units | state | | connected | it | reason
                | it reason | it]; cbn [Lifecycle.dispatch half_hour_tick
                                        disconnection Lifecycle.complete_message].
  - destruct (update_time_ok env st Hok) as (st' & E & Hok' & W & _).
    exists st'.
    exists ([text_layer_set_text s_time_layer buf_s_buffer;
             text_layer_set_text s_date_layer buf_date_buffer] ++
            (if tm_min tick_time mod 30 =? 0
             then [app_message_outbox_begin; dict_write_uint8 0 0;
                   app_message_outbox_send]
             else []))%list.
    split; [| split; [exact Hok' | ]].
    + unfold tick_handler, bind. rewrite E, rem_30_zero.
      destruct (tm_min tick_time mod 30 =? 0); reflexivity.
    + split; [| split; [| intros _; exact W]];
        destruct (tm_min tick_time mod 30 =? 0); reflexivity.
  - do 2 eexists; split; [reflexivity |].
    repeat split; try reflexivity; apply Hok.
  - do 2 eexists; split; [apply battery_update_proc_run |].
    repeat split; try reflexivity; apply Hok.
  - do 2 eexists; split; [apply bluetooth_callback_run |].
    split; [exact Hok |].
    destruct connected; repeat split; reflexivity.
  - cbn [Lifecycle.event_readable] in R. unfold readable in R.
    destruct (complete key_temperature key_conditions it) eqn:C.
    + unfold complete in C.
      destruct (dict_find it key_temperature) as [temp |] eqn:Ft;
        [| discriminate].
      destruct (dict_find it key_conditions) as [cond |] eqn:Fc;
        [| discriminate].
      unfold value_int32, value_cstring in R.
      destruct (value temp) as [? | t | ?] eqn:Vt; try discriminate.
      destruct (value cond) as [? | ? | c] eqn:Vc; try discriminate.
      do 2 eexists.
      split; [apply (inbox_complete_run _ _ it st temp cond t c); assumption |].
      split; [| repeat split; try reflexivity; discriminate].
      destruct Hok as (B1 & B2 & _ & _ & _ & P1 & P2 & _).
      unfold storage_ok.
      cbn [s_buffer date_buffer temperature_buffer conditions_buffer
           weather_layer_buffer text store_text store_weather_layer_buffer
           store_conditions_buffer store_temperature_buffer TextLayer_eqb].
      rewrite !take_length.
      repeat split; auto; lia.
    + rewrite (inbox_partial_run it st C).
      do 2 eexists; split; [reflexivity |].
      repeat split; try reflexivity; apply Hok.
  - do 2 eexists; split; [reflexivity |].
    repeat split; try reflexivity; apply Hok.
  - do 2 eexists; split; [reflexivity |].
    repeat split; try reflexivity; apply Hok.
  - do 2 eexists; split; [reflexivity |].
    repeat split; try reflexivity; apply Hok.
Qed.

Lemma filter_cons_length {A} (f : A -> bool) (a : A) (l : list A) :
  List.length (filter f (a :: l)) =
  ((if f a then 1 else 0) + List.length (filter f l))%nat.
Proof. simpl; destruct (f a); reflexivity. Qed.

(** The event loop over any list of readable events. *)
Lemma app_event_loop_ok (events : list Event) (st : State) :
  forallb (event_readable key_temperature key_conditions) events = true ->
  storage_ok st ->
  exists st' cs,
    app_event_loop key_temperature key_conditions events st =
      Some (tt, st', cs) /\
    storage_ok st' /\
    count is_outbox_send cs = List.length (filter half_hour_tick events) /\
    count is_double_pulse cs = List.length (filter disconnection events) /\
    (existsb (complete_message key_temperature key_conditions) events = false ->
     weather_text st' = weather_text st).
Proof.
  revert st; induction events as [|e rest IH]; intros st R Hok.
  - exists st, [].
    split; [reflexivity |]. split; [exact Hok |]. repeat split; reflexivity.
  - cbn [forallb] in R; apply andb_true_iff in R; destruct R as [R1 R2].
    destruct (dispatch_ok e st R1 Hok) as (st1 & cs1 & E1 & Hok1 & S1 & P1 & W1).
    destruct (IH st1 R2 Hok1) as (st' & cs' & E' & Hok' & S' & P' & W').
    exists st', (cs1 ++ cs')%list.
    split.
    { cbn [Lifecycle.app_event_loop]; unfold bind; now rewrite E1, E'. }
    split; [exact Hok' |].
    rewrite !count_app, !filter_cons_length, S1, P1, S', P'.
    split; [reflexivity |]. split; [reflexivity |].
    cbn [existsb]; intros C; apply orb_false_iff in C; destruct C as [C1 C2].
    now rewrite (W' C2), (W1 C1).
Qed.

(** [init] from the program's initial storage. *)
Lemma init_ok (h : Host) :
  exists st0 ops0,
    init h initial = Some (st0, ops0) /\
    storage_ok st0 /\
    weather_text st0 = None /\
    s_battery_level st0 = charge_percent (battery_state_service_peek h) /\
    bt_icon_hidden st0 = connection_service_peek_pebble_app_connection h /\
    current_time st0 =
      strftime 8
        (if clock_is_24h_style (launch_env h) then "%H:%M" else "%I:%M")
        (localtime (launch_env h)) /\
    current_date st0 = strftime 16 "%a %b %e" (localtime (launch_env h)) /\
    sdk_calls ops0 =
      ((layer_set_hidden Watchface.s_bt_icon_layer
          (connection_service_peek_pebble_app_connection h)
          :: (if connection_service_peek_pebble_app_connection h
              then [] else [vibes_double_pulse])) ++
       [text_layer_set_text s_time_layer buf_s_buffer;
        text_layer_set_text s_date_layer buf_date_buffer;
        layer_mark_dirty s_battery_layer])%list /\
    created ops0 =
      [window;
       text_layer s_date_layer; font s_date_font;
       bitmap s_background_bitmap; bitmap_layer s_background_layer;
       text_layer s_time_layer; font s_time_font;
       text_layer s_weather_layer; font s_weather_font;
       plain_layer s_battery_layer;
       bitmap s_bt_icon_bitmap; bitmap_layer s_bt_icon_layer] /\
    destroyed ops0 = [].
Proof.
  destruct h as [b r c bat env].
  cbn [battery_state_service_peek launch_env
       connection_service_peek_pebble_app_connection].
  pose proof (strftime_fits 8
                (if clock_is_24h_style env then "%H:%M" else "%I:%M")
                (localtime env)) as FT.
  pose proof (strftime_fits 16 "%a %b %e" (localtime env)) as FD.
  destruct c; do 2 eexists; (split; [reflexivity |]);
    (split; [unfold storage_ok; cbn; repeat split; auto; lia |]);
    repeat split; reflexivity.
Qed.

Lemma deinit_run (st : State) :
  exists ops,
    deinit st = Some (st, ops) /\
    sdk_calls ops = [] /\
    created ops = [] /\
    destroyed ops =
      [window;
       text_layer s_time_layer; text_layer s_date_layer;
       font s_time_font; font s_date_font;
       bitmap s_background_bitmap; bitmap_layer s_background_layer;
       text_layer s_weather_layer; font s_weather_font;
       plain_layer s_battery_layer;
       bitmap s_bt_icon_bitmap; bitmap_layer s_bt_icon_layer].
Proof. eexists; split; [reflexivity |]; repeat split; reflexivity. Qed.

(** The whole program, from the initial storage. *)
Lemma main_run (h : Host) (events : list Event) :
  forallb (event_readable key_temperature key_conditions) events = true ->
  exists st' ops,
    main key_temperature key_conditions h events initial = Some (st', ops) /\
    storage_ok st' /\
    count is_outbox_send (sdk_calls ops) =
      List.length (filter half_hour_tick events) /\
    count is_double_pulse (sdk_calls ops) =
      ((if connection_service_peek_pebble_app_connection h then 0 else 1) +
       List.length (filter disconnection events))%nat /\
    (existsb (complete_message key_temperature key_conditions) events = false ->
     weather_text st' = None) /\
    created ops =
      [window;
       text_layer s_date_layer; font s_date_font;
       bitmap s_background_bitmap; bitmap_layer s_background_layer;
       text_layer s_time_layer; font s_time_font;
       text_layer s_weather_layer; font s_weather_font;
       plain_layer s_battery_layer;
       bitmap s_bt_icon_bitmap; bitmap_layer s_bt_icon_layer] /\
    destroyed ops =
      [window;
       text_layer s_time_layer; text_layer s_date_layer;
       font s_time_font; font s_date_font;
       bitmap s_background_bitmap; bitmap_layer s_background_layer;
       text_layer s_weather_layer; font s_weather_font;
       plain_layer s_battery_layer;
       bitmap s_bt_icon_bitmap; bitmap_layer s_bt_icon_layer].
Proof.
  intros R.
  destruct (init_ok h)
    as (st0 & ops0 & E0 & Hok0 & W0 & _ & _ & _ & _ & K0 & C0 & D0).
  destruct (app_event_loop_ok events st0 R Hok0)
    as (st1 & cs & E1 & Hok1 & S1 & P1 & W1).
  destruct (deinit_run st1) as (opsd & Ed & Kd & Cd & Dd).
  exists st1, (ops0 ++ map sdk cs ++ opsd ++ [])%list.
  split.
  { unfold Lifecycle.main, steps; cbn [fold_right].
    apply then_run with st0; [exact E0 |].
    apply then_run with st1; [apply run_run; exact E1 |].
    apply then_run with st1; [exact Ed | reflexivity]. }
  split; [exact Hok1 |].
  rewrite !sdk_calls_app, !created_app, !destroyed_app.
  rewrite sdk_calls_sdk, created_sdk, destroyed_sdk, K0, Kd, C0, Cd, D0, Dd.
  rewrite !count_app, S1, P1.
  split.
  { destruct (connection_service_peek_pebble_app_connection h); cbn; lia. }
  split.
  { destruct (connection_service_peek_pebble_app_connection h); cbn; lia. }
  split; [| split; reflexivity].
  intros C; now rewrite (W1 C).
Qed.

(** X13: start-up asks for no weather: [init] hands nothing to the outbox
    and the weather layer has no text when it returns. *)
Theorem init_requests_no_weather (h : Host) :
  exists st0 ops0,
    init h initial = Some (st0, ops0) /\
    count is_outbox_send (sdk_calls ops0) = 0%nat /\
    sent_messages (sdk_calls ops0) = [] /\
    weather_text st0 = None.
Proof.
  destruct (init_ok h)
    as (st0 & ops0 & E0 & _ & W0 & _ & _ & _ & _ & K0 & _).
  exists st0, ops0; split; [exact E0 |].
  rewrite K0.
  destruct (connection_service_peek_pebble_app_connection h);
    repeat split; try reflexivity; exact W0.
Qed.

(** X14: when [init] returns the face already reflects the host: the time
    and date layers show the clock as [update_time] formats it, the battery
    level is the one peeked, the bluetooth icon is hidden exactly when the
    phone is connected, and a watch launched without connection has pulsed
    once. *)
Theorem init_shows_launch_state (h : Host) :
  exists st0 ops0,
    init h initial = Some (st0, ops0) /\
    current_time st0 =
      strftime 8
        (if clock_is_24h_style (launch_env h) then "%H:%M" else "%I:%M")
        (localtime (launch_env h)) /\
    current_date st0 = strftime 16 "%a %b %e" (localtime (launch_env h)) /\
    s_battery_level st0 = charge_percent (battery_state_service_peek h) /\
    bt_icon_hidden st0 = connection_service_peek_pebble_app_connection h /\
    count is_double_pulse (sdk_calls ops0) =
      (if connection_service_peek_pebble_app_connection h
       then 0%nat else 1%nat).
Proof.
  destruct (init_ok h)
    as (st0 & ops0 & E0 & _ & _ & B0 & H0 & T0 & D0 & K0 & _).
  exists st0, ops0; split; [exact E0 |].
  rewrite K0.
  repeat (split; [assumption |]).
  destruct (connection_service_peek_pebble_app_connection h); reflexivity.
Qed.

(** X15: over a whole run of the program the messages handed to the outbox
    number exactly the ticks whose minute is a multiple of 30. *)
Theorem main_weather_requests (h : Host) (events : list Event)
    (R : forallb (event_readable key_temperature key_conditions) events
         = true) :
  exists st' ops,
    main key_temperature key_conditions h events initial = Some (st', ops) /\
    count is_outbox_send (sdk_calls ops) =
      List.length (filter half_hour_tick events).
Proof.
  destruct (main_run h events R) as (st' & ops & E & _ & S & _).
  now exists st', ops.
Qed.

(** X16: over a whole run the double pulses number the connection events
    that report a disconnection, plus one when the watch is launched
    without connection. *)
Theorem main_pulses (h : Host) (events : list Event)
    (R : forallb (event_readable key_temperature key_conditions) events
         = true) :
  exists st' ops,
    main key_temperature key_conditions h events initial = Some (st', ops) /\
    count is_double_pulse (sdk_calls ops) =
      ((if connection_service_peek_pebble_app_connection h then 0 else 1) +
       List.length (filter disconnection events))%nat.
Proof.
  destruct (main_run h events R) as (st' & ops & E & _ & _ & P & _).
  now exists st', ops.
Qed.

(** X17: whatever events arrive, every static buffer ends holding a string
    that fits it together with its NUL, each text layer shows its own
    buffer or nothing, and so the strings on screen have fewer than 8, 16
    and 32 characters. *)
Theorem main_storage_within_bounds (h : Host) (events : list Event)
    (R : forallb (event_readable key_temperature key_conditions) events
         = true) :
  exists st' ops,
    main key_temperature key_conditions h events initial = Some (st', ops) /\
    storage_ok st' /\
    fits 8 (current_time st') /\
    fits 16 (current_date st') /\
    fits 32 (weather_text st').
Proof.
  destruct (main_run h events R) as (st' & ops & E & Hok & _).
  exists st', ops; split; [exact E |]. split; [exact Hok |].
  destruct Hok as (B1 & B2 & _ & _ & B5 & P1 & P2 & P3).
  unfold current_time, current_date, weather_text, shown.
  split; [| split].
  - destruct P1 as [P | P]; rewrite P; [exact I | exact B1].
  - destruct P2 as [P | P]; rewrite P; [exact I | exact B2].
  - destruct P3 as [P | P]; rewrite P; [exact I | exact B5].
Qed.


(** X19: the weather layer stays without text for as long as no complete
    message has arrived: a run in which every received message lacks a
    field ends with no weather text. *)
Theorem weather_blank_without_complete_message (h : Host)
    (events : list Event)
    (R : forallb (event_readable key_temperature key_conditions) events
         = true)
    (C : existsb (complete_message key_temperature key_conditions) events
         = false) :
  exists st' ops,
    main key_temperature key_conditions h events initial = Some (st', ops) /\
    weather_text st' = None.
Proof.
  destruct (main_run h events R) as (st' & ops & E & _ & _ & _ & W & _).
  exists st', ops; split; [exact E | exact (W C)].
Qed.

End Runs2.

(** ** Concrete runs of the further properties *)

Section MoreRuns.
Import CLib Sdk Watchface Samples Lifecycle Scenarios.

Lemma time_shown_24h_witness :
  exists st',
    update_time (mk_Env march_5 true) initial =
      Some (tt, st',
            [text_layer_set_text s_time_layer buf_s_buffer;
             text_layer_set_text s_date_layer buf_date_buffer]) /\
    current_time st' = Some "13:05".
Proof.
  apply (time_shown_24h (mk_Env march_5 true) initial);
    [reflexivity | simpl; lia | simpl; lia].
Defined.

Lemma time_shown_12h_witness :
  exists st',
    update_time (mk_Env march_5 false) initial =
      Some (tt, st',
            [text_layer_set_text s_time_layer buf_s_buffer;
             text_layer_set_text s_date_layer buf_date_buffer]) /\
    current_time st' = Some "01:05" /\
    1 <= hour12 13 <= 12 /\
    hour12 (13 + 12) = hour12 13.
Proof.
  apply (time_shown_12h (mk_Env march_5 false) initial);
    [reflexivity | simpl; lia | simpl; lia].
Defined.

Lemma date_shown_witness :
  exists st' s,
    update_time (mk_Env march_5 true) initial =
      Some (tt, st',
            [text_layer_set_text s_time_layer buf_s_buffer;
             text_layer_set_text s_date_layer buf_date_buffer]) /\
    current_date st' = Some s /\
    s = "Wed Mar  5" /\
    String.length s = 10%nat.
Proof.
  apply (date_shown (mk_Env march_5 true) initial); simpl; lia.
Defined.

Lemma tick_leaves_weather_and_battery_witness :
  storage_ok showing_cloudy /\
  exists st' cs,
    tick_handler (mk_Env half_past true) half_past 2 showing_cloudy =
      Some (tt, st', cs) /\
    weather_text st' = Some "72F, Cloudy" /\
    s_battery_level st' = 0 /\
    bt_icon_hidden st' = false /\
    count is_double_pulse cs = 0%nat /\
    count is_log cs = 0%nat /\
    painted GColorClear cs = [].
Proof.
  assert (H : storage_ok showing_cloudy)
    by (unfold storage_ok; simpl; repeat split; auto; lia).
  split; [exact H |].
  exact (tick_leaves_weather_and_battery (mk_Env half_past true) half_past 2
           showing_cloudy GColorClear H).
Defined.

Lemma inbox_last_message_wins_witness :
  exists st1 cs1 st2 cs2 st2' cs2',
    inbox_received_callback KEY_TEMPERATURE KEY_CONDITIONS cloudy initial =
      Some (tt, st1, cs1) /\
    inbox_received_callback KEY_TEMPERATURE KEY_CONDITIONS stormy st1 =
      Some (tt, st2, cs2) /\
    inbox_received_callback KEY_TEMPERATURE KEY_CONDITIONS stormy initial =
      Some (tt, st2', cs2') /\
    weather_text st2 = weather_text st2'.
Proof.
  exact (inbox_last_message_wins KEY_TEMPERATURE KEY_CONDITIONS
           cloudy stormy initial _ _ _ _ 72 72 "Cloudy"
           "Thunderstorms with heavy rain and hail"
           eq_refl eq_refl eq_refl eq_refl eq_refl eq_refl eq_refl eq_refl).
Defined.

Lemma temperature_unit_cut_witness :
  exists st' cs,
    inbox_received_callback KEY_TEMPERATURE KEY_CONDITIONS overlong initial =
      Some (tt, st', cs) /\
    temperature_buffer st' = "1234567".
Proof.
  exact (temperature_unit_cut KEY_TEMPERATURE KEY_CONDITIONS overlong initial
           _ _ 1234567 "Sunny" eq_refl eq_refl eq_refl eq_refl).
Defined.

Lemma battery_event_then_draw_witness :
  exists st1 cs2,
    battery_callback (mk_BatteryChargeState 70 false false) initial =
      Some (tt, st1, [layer_mark_dirty s_battery_layer]) /\
    s_battery_level st1 = 70 /\
    current_time st1 = current_time initial /\
    current_date st1 = current_date initial /\
    weather_text st1 = weather_text initial /\
    battery_update_proc s_battery_layer st1 = Some (tt, st1, cs2) /\
    painted GColorClear cs2 =
      [(GColorBlack, mk_GRect 0 0 115 2); (GColorWhite, mk_GRect 0 0 79 2)].
Proof.
  apply (battery_event_then_draw (mk_BatteryChargeState 70 false false)
           initial GColorClear); simpl; lia.
Defined.

Lemma bar_width_strictly_increasing_witness :
  0 <= 20 /\ 20 < 21 /\ 21 <= 255 /\ bar_width 20 < bar_width 21.
Proof.
  repeat (split; [lia |]).
  apply (bar_width_strictly_increasing 20 21); lia.
Defined.

Lemma bar_exceeds_layer_above_101_witness :
  0 <= 102 <= 255 /\
  0 <= bar_width 102 /\
  (bar_width 102 <= size_w (layer_get_bounds s_battery_layer) <-> 102 <= 101).
Proof.
  split; [lia |].
  apply (bar_exceeds_layer_above_101 102); lia.
Defined.

Lemma main_weather_requests_witness :
  exists st' ops,
    main KEY_TEMPERATURE KEY_CONDITIONS launch afternoon initial =
      Some (st', ops) /\
    count is_outbox_send (sdk_calls ops) = 1%nat.
Proof.
  exact (main_weather_requests KEY_TEMPERATURE KEY_CONDITIONS launch afternoon
           eq_refl).
Defined.

Lemma main_pulses_witness :
  exists st' ops,
    main KEY_TEMPERATURE KEY_CONDITIONS launch afternoon initial =
      Some (st', ops) /\
    count is_double_pulse (sdk_calls ops) = 2%nat.
Proof.
  exact (main_pulses KEY_TEMPERATURE KEY_CONDITIONS launch afternoon
           eq_refl).
Defined.

Lemma main_storage_within_bounds_witness :
  exists st' ops,
    main KEY_TEMPERATURE KEY_CONDITIONS launch afternoon initial =
      Some (st', ops) /\
    storage_ok st' /\
    fits 8 (current_time st') /\
    fits 16 (current_date st') /\
    fits 32 (weather_text st').
Proof.
  exact (main_storage_within_bounds KEY_TEMPERATURE KEY_CONDITIONS launch
           afternoon eq_refl).
Defined.


Lemma weather_blank_without_complete_message_witness :
  exists st' ops,
    main KEY_TEMPERATURE KEY_CONDITIONS launch no_answer initial =
      Some (st', ops) /\
    weather_text st' = None.
Proof.
  exact (weather_blank_without_complete_message KEY_TEMPERATURE KEY_CONDITIONS
           launch no_answer eq_refl eq_refl).
Defined.

End MoreRuns.
